(** * MapShare: the map component and the geocode proxy

    A shallow embedding of

    - [src/components/Map.tsx], the React component that owns the Leaflet
      map, the place search, the Wikipedia geosearch and the article
      browser;
    - [src/unnamed/part_001], the search-only variant of the same component;
    - [src/unnamed/part_000], the route handler [GET] that proxies the
      geocoder.

    The component's data is untyped JSON ([any] in the source), so values
    are modelled as JavaScript values and every property access, coercion
    and exception of the handlers is written out.  Handlers run in a small
    monad that threads the component state, records the requests and console
    output they produce, and supports [try]/[catch].

    Two things lie outside the repository.  The network is a function from
    requests to the way they settle.  The Leaflet map is the record of what
    the component asks of it: a viewport, the mounted tile layers and the
    markers of the layer group.  Two facts of Leaflet bear on the handlers
    and are part of the model: [setView] builds an [L.LatLng] from its
    position first and throws when a coordinate is [NaN], before the map is
    touched; and a [setView] that went through ends in a [moveend] event,
    fired during the call or when its animation ends.  One run of a handler
    is taken as a whole, from its call to the last state update it makes;
    overlapping runs of asynchronous handlers are not interleaved, and the
    [moveend] listener is a run of its own ([onMoveEnd]). *)

From Stdlib Require Import ZArith List String Ascii Bool Lia.
Import ListNotations.
Local Open Scope string_scope.
Set Warnings "-register-all".

(** ** The JavaScript runtime

    IEEE doubles and the built-in conversions between numbers and strings
    are supplied by the host; the model is parametric in them. *)

Class Runtime : Type := {
  number : Type;
  (** [Number::toString], used by template strings and [Array.join]. *)
  number_toString : number -> string;
  (** [StringToNumber]: the value of [Number(s)], and of a numeric literal
      written [s] in the program text. *)
  string_toNumber : string -> number;
  (** [Number.parseFloat] applied to a string. *)
  parseFloat : string -> number;
  (** [ToBoolean] on a number: false for [0], [-0] and [NaN]. *)
  number_truthy : number -> bool;
  (** The comparison [n > 0]. *)
  number_gt0 : number -> bool;
  (** The built-in [isNaN] on a number. *)
  number_isNaN : number -> bool;
  (** The built-in [isFinite] on a number: false for [NaN] and the two
      infinities. *)
  number_isFinite : number -> bool;
  (** The built-in [encodeURIComponent]. *)
  encodeURIComponent : string -> string
}.

(** A numeric literal of the program text. *)
Definition literal `{Runtime} (text : string) : number := string_toNumber text.

(** ** Exceptions and computations that may throw *)

Inductive exn : Type :=
| TypeError
| SyntaxError
| NetworkError (reason : string)
| Error (message : string).

Definition Result (A : Type) : Type := (exn + A)%type.

Definition bindR {A B : Type} (r : Result A) (k : A -> Result B) : Result B :=
  match r with
  | inl e => inl e
  | inr a => k a
  end.

Notation "'do' x <- r ; k" := (bindR r (fun x => k))
  (at level 10, x name, r at level 100, k at level 200).

Fixpoint mapR {A B : Type} (f : A -> Result B) (l : list A) : Result (list B) :=
  match l with
  | [] => inr []
  | x :: rest =>
      do y <- f x;
      do ys <- mapR f rest;
      inr (y :: ys)
  end.

(** ** JavaScript values *)

Section Values.
Context `{Runtime}.

(** What [response.json()] produces, plus [undefined], the value of a
    property that is not there.  An object lists its own properties in
    enumeration order; keys are unique. *)
Inductive value : Type :=
| VUndefined
| VNull
| VBool (b : bool)
| VNum (n : number)
| VStr (s : string)
| VArr (items : list value)
| VObj (props : list (string * value)).

Fixpoint lookup (key : string) (props : list (string * value)) : option value :=
  match props with
  | [] => None
  | (k, v) :: rest => if String.eqb key k then Some v else lookup key rest
  end.

Definition hasOwn (key : string) (props : list (string * value)) : bool :=
  match lookup key props with
  | Some _ => true
  | None => false
  end.

(** [v.key] for a data property [key] (none of the names the handlers read
    is defined on a prototype or is [length]). *)
Definition getProp (v : value) (key : string) : Result value :=
  match v with
  | VUndefined | VNull => inl TypeError
  | VObj props =>
      match lookup key props with
      | Some x => inr x
      | None => inr VUndefined
      end
  | _ => inr VUndefined
  end.

(** [v[0]]. *)
Definition getFirst (v : value) : Result value :=
  match v with
  | VUndefined | VNull => inl TypeError
  | VArr items => inr (nth 0 items VUndefined)
  | VStr s =>
      match s with
      | EmptyString => inr VUndefined
      | String c _ => inr (VStr (String c EmptyString))
      end
  | VObj props =>
      match lookup "0" props with
      | Some x => inr x
      | None => inr VUndefined
      end
  | _ => inr VUndefined
  end.

(** [ToBoolean]. *)
Definition truthy (v : value) : bool :=
  match v with
  | VUndefined | VNull => false
  | VBool b => b
  | VNum n => number_truthy n
  | VStr s => negb (String.eqb s "")
  | VArr _ | VObj _ => true
  end.

(** [v !== null]. *)
Definition notNull (v : value) : bool :=
  match v with
  | VNull => false
  | _ => true
  end.

(** [Array.prototype.join]: [undefined] and [null] elements contribute the
    empty string, the others their [ToString]. *)
Definition joinWith (toStr : value -> Result string) (sep : string) :
  list value -> Result string :=
  fix go (items : list value) : Result string :=
    let element (x : value) : Result string :=
      match x with
      | VUndefined | VNull => inr ""
      | _ => toStr x
      end in
    match items with
    | [] => inr ""
    | [x] => element x
    | x :: rest =>
        do s <- element x;
        do t <- go rest;
        inr (s ++ sep ++ t)
    end.

(** [ToString].  A parsed object has no callable [toString] of its own: it
    prints as [[object Object]] through the inherited one, and throws when
    an own data property shadows it. *)
Fixpoint toString (v : value) : Result string :=
  match v with
  | VUndefined => inr "undefined"
  | VNull => inr "null"
  | VBool true => inr "true"
  | VBool false => inr "false"
  | VNum n => inr (number_toString n)
  | VStr s => inr s
  | VArr items => joinWith toString "," items
  | VObj props =>
      if hasOwn "toString" props then inl TypeError else inr "[object Object]"
  end.

Definition join (sep : string) (items : list value) : Result string :=
  joinWith toString sep items.

(** [v.map(f)]: only an array has a callable [map]. *)
Definition arrayMap {B : Type} (f : value -> Result B) (v : value) : Result (list B) :=
  match v with
  | VArr items => mapR f items
  | _ => inl TypeError
  end.

Definition chars (s : string) : list value :=
  map (fun c => VStr (String c EmptyString)) (list_ascii_of_string s).

(** [Object.values(v)]. *)
Definition Object_values (v : value) : Result (list value) :=
  match v with
  | VUndefined | VNull => inl TypeError
  | VObj props => inr (map snd props)
  | VArr items => inr items
  | VStr s => inr (chars s)
  | _ => inr []
  end.

(** [v.slice(0, count)]: only strings and arrays have a callable [slice]. *)
Definition sliceFirst (count : nat) (v : value) : Result value :=
  match v with
  | VStr s => inr (VStr (substring 0 count s))
  | VArr items => inr (VArr (firstn count items))
  | _ => inl TypeError
  end.

(** [x > 0] for a value [x]: [ToPrimitive] with hint number, then
    [ToNumber]. *)
Definition gtZero (x : value) : Result bool :=
  match x with
  | VUndefined | VNull => inr false
  | VBool b => inr b
  | VNum n => inr (number_gt0 n)
  | VStr s => inr (number_gt0 (string_toNumber s))
  | VArr _ | VObj _ =>
      do s <- toString x;
      inr (number_gt0 (string_toNumber s))
  end.

(** [data.length > 0]. *)
Definition lengthGtZero (data : value) : Result bool :=
  match data with
  | VUndefined | VNull => inl TypeError
  | VArr items => inr (0 <? List.length items)%nat
  | VStr s => inr (0 <? String.length s)%nat
  | VObj props =>
      match lookup "length" props with
      | Some x => gtZero x
      | None => inr false
      end
  | _ => inr false
  end.

End Values.

(** ** Requests, responses and observable effects *)

Record Request : Type := {
  url : string;
  headers : list (string * string)
}.

Definition plainGet (u : string) : Request := {| url := u; headers := [] |}.

Section Effects.
Context `{Runtime}.

(** A response as the handlers use it: the status line and what
    [response.json()] yields ([None] when the body does not parse). *)
Record Response : Type := {
  status : Z;
  body : option value
}.

(** [response.ok]. *)
Definition ok (r : Response) : bool :=
  (200 <=? status r)%Z && (status r <=? 299)%Z.

(** How a [fetch] settles: the promise rejects, or resolves to a response. *)
Inductive FetchOutcome : Type :=
| Rejected (reason : string)
| Resolved (response : Response).

(** The network, as seen from one handler run. *)
Definition Network : Type := Request -> FetchOutcome.

(** A request fails when [fetch] rejects or the body does not parse. *)
Definition failed (o : FetchOutcome) : bool :=
  match o with
  | Rejected _ => true
  | Resolved r =>
      match body r with
      | None => true
      | Some _ => false
      end
  end.

Inductive LogArg : Type :=
| ArgCount (n : nat)
| ArgValue (v : value)
| ArgError (e : exn).

Inductive Event : Type :=
| EvFetch (req : Request)
| EvConsoleLog (message : string) (args : list LogArg)
| EvConsoleWarn (message : string) (args : list LogArg)
| EvConsoleError (message : string) (args : list LogArg).

(** A handler over a state [S]: it may throw, and the state it reached and
    the effects it produced survive the exception. *)
Definition Eff (S A : Type) : Type := S -> Result A * S * list Event.

Definition ret {S A : Type} (a : A) : Eff S A := fun s => (inr a, s, []).

Definition bind {S A B : Type} (m : Eff S A) (k : A -> Eff S B) : Eff S B :=
  fun s =>
    match m s with
    | (inl e, s1, t1) => (inl e, s1, t1)
    | (inr a, s1, t1) =>
        match k a s1 with
        | (r, s2, t2) => (r, s2, (t1 ++ t2)%list)
        end
    end.

Definition throw {S A : Type} (e : exn) : Eff S A := fun s => (inl e, s, []).

Definition tryCatch {S A : Type} (m : Eff S A) (handler : exn -> Eff S A) : Eff S A :=
  fun s =>
    match m s with
    | (inl e, s1, t1) =>
        match handler e s1 with
        | (r, s2, t2) => (r, s2, (t1 ++ t2)%list)
        end
    | done => done
    end.

Definition lift {S A : Type} (r : Result A) : Eff S A := fun s => (r, s, []).

Definition getState {S : Type} : Eff S S := fun s => (inr s, s, []).

Definition modify {S : Type} (f : S -> S) : Eff S unit := fun s => (inr tt, f s, []).

Definition emit {S : Type} (ev : Event) : Eff S unit := fun s => (inr tt, s, [ev]).

(** [await fetch(req)]. *)
Definition fetch {S : Type} (net : Network) (req : Request) : Eff S Response :=
  fun s =>
    match net req with
    | Rejected reason => (inl (NetworkError reason), s, [EvFetch req])
    | Resolved r => (inr r, s, [EvFetch req])
    end.

(** [await response.json()]. *)
Definition json {S : Type} (r : Response) : Eff S value :=
  match body r with
  | Some v => ret v
  | None => throw SyntaxError
  end.

End Effects.

Notation "x <- m ;; k" := (bind m (fun x => k))
  (at level 61, m at next level, right associativity).
Notation "m ;; k" := (bind m (fun _ => k))
  (at level 61, right associativity).

(** [items.forEach(f)]. *)
Fixpoint forEach `{Runtime} {S A : Type} (f : A -> Eff S unit) (items : list A) : Eff S unit :=
  match items with
  | [] => ret tt
  | x :: rest => f x ;; forEach f rest
  end.

(** ** The map component ([src/components/Map.tsx]) *)

Inductive Layer : Type := standard | satellite | explore.

Definition mapLayers (layer : Layer) : string :=
  match layer with
  | standard => "https://{s}.tile.openstreetmap.org/{z}/{x}/{y}.png"
  | satellite =>
      "https://server.arcgisonline.com/ArcGIS/rest/services/World_Imagery/MapServer/tile/{z}/{y}/{x}"
  | explore => "https://{s}.tile.opentopomap.org/{z}/{x}/{y}.png"
  end.

Inductive Direction : Type := next | prev.

(** The article cursor is a JavaScript number that only ever holds an
    integer or, after a remainder by zero, [NaN]. *)
Inductive Index : Type :=
| Idx (i : Z)
| IdxNaN.

(** [i + k]. *)
Definition plus (i : Index) (k : Z) : Index :=
  match i with
  | Idx x => Idx (x + k)
  | IdxNaN => IdxNaN
  end.

(** [i % n]: the remainder takes the sign of the dividend and is [NaN] for
    [n = 0]. *)
Definition remainder (i : Index) (n : Z) : Index :=
  match i with
  | Idx x => if (n =? 0)%Z then IdxNaN else Idx (Z.rem x n)
  | IdxNaN => IdxNaN
  end.

(** [items[i]]: [undefined] ([None]) outside the array. *)
Definition at_index {A : Type} (items : list A) (i : Index) : option A :=
  match i with
  | Idx x => if (x <? 0)%Z then None else nth_error items (Z.to_nat x)
  | IdxNaN => None
  end.

Section Component.
Context `{Runtime}.
Variable net : Network.

Record WikiArticle : Type := {
  pageid : value;
  title : value;
  extract : value;
  fullurl : value;
  lat : value;
  lon : value;
  thumbnail : value
}.

(** A marker of the layer group: where it stands and the article it was
    created for, whose popup it shows once bound. *)
Record Marker : Type := {
  position : number * number;
  popup : WikiArticle
}.

(** The Leaflet map, as far as the component drives it: the viewport, the
    mounted tile layers and the content of the marker layer group. *)
Record LeafletMap : Type := {
  center : number * number;
  zoom : Z;
  tileLayers : list string;
  markers : list Marker
}.

Definition setView (c : number * number) (z : Z) (m : LeafletMap) : LeafletMap :=
  {| center := c; zoom := z; tileLayers := tileLayers m; markers := markers m |}.

Definition setMarkers (ms : list Marker) (m : LeafletMap) : LeafletMap :=
  {| center := center m; zoom := zoom m; tileLayers := tileLayers m; markers := ms |}.

Definition setTileLayers (ts : list string) (m : LeafletMap) : LeafletMap :=
  {| center := center m; zoom := zoom m; tileLayers := ts; markers := markers m |}.

(** The [useState] cells and the refs.  [markersLayerRef] is set together
    with [mapRef] and is part of the map. *)
Record State : Type := {
  searchQuery : string;
  currentLayer : Layer;
  showControls : bool;
  wikiArticles : list WikiArticle;
  currentArticleIndex : Index;
  userLocation : option (number * number);
  mapRef : option LeafletMap;
  tileLayerRef : option string
}.

Definition initialState : State :=
  {| searchQuery := "";
     currentLayer := standard;
     showControls := false;
     wikiArticles := [];
     currentArticleIndex := Idx 0;
     userLocation := None;
     mapRef := None;
     tileLayerRef := None |}.

Definition withSearchQuery (q : string) (s : State) : State :=
  {| searchQuery := q;
     currentLayer := currentLayer s;
     showControls := showControls s;
     wikiArticles := wikiArticles s;
     currentArticleIndex := currentArticleIndex s;
     userLocation := userLocation s;
     mapRef := mapRef s;
     tileLayerRef := tileLayerRef s |}.

Definition withCurrentLayer (l : Layer) (s : State) : State :=
  {| searchQuery := searchQuery s;
     currentLayer := l;
     showControls := showControls s;
     wikiArticles := wikiArticles s;
     currentArticleIndex := currentArticleIndex s;
     userLocation := userLocation s;
     mapRef := mapRef s;
     tileLayerRef := tileLayerRef s |}.

Definition withShowControls (shown : bool) (s : State) : State :=
  {| searchQuery := searchQuery s;
     currentLayer := currentLayer s;
     showControls := shown;
     wikiArticles := wikiArticles s;
     currentArticleIndex := currentArticleIndex s;
     userLocation := userLocation s;
     mapRef := mapRef s;
     tileLayerRef := tileLayerRef s |}.

Definition withWikiArticles (articles : list WikiArticle) (s : State) : State :=
  {| searchQuery := searchQuery s;
     currentLayer := currentLayer s;
     showControls := showControls s;
     wikiArticles := articles;
     currentArticleIndex := currentArticleIndex s;
     userLocation := userLocation s;
     mapRef := mapRef s;
     tileLayerRef := tileLayerRef s |}.

Definition withCurrentArticleIndex (i : Index) (s : State) : State :=
  {| searchQuery := searchQuery s;
     currentLayer := currentLayer s;
     showControls := showControls s;
     wikiArticles := wikiArticles s;
     currentArticleIndex := i;
     userLocation := userLocation s;
     mapRef := mapRef s;
     tileLayerRef := tileLayerRef s |}.

Definition withUserLocation (loc : option (number * number)) (s : State) : State :=
  {| searchQuery := searchQuery s;
     currentLayer := currentLayer s;
     showControls := showControls s;
     wikiArticles := wikiArticles s;
     currentArticleIndex := currentArticleIndex s;
     userLocation := loc;
     mapRef := mapRef s;
     tileLayerRef := tileLayerRef s |}.

Definition withMap (m : option LeafletMap) (tile : option string) (s : State) : State :=
  {| searchQuery := searchQuery s;
     currentLayer := currentLayer s;
     showControls := showControls s;
     wikiArticles := wikiArticles s;
     currentArticleIndex := currentArticleIndex s;
     userLocation := userLocation s;
     mapRef := m;
     tileLayerRef := tile |}.

Definition setWikiArticles (articles : list WikiArticle) : Eff State unit :=
  modify (withWikiArticles articles).

(** The check of [new L.LatLng(lat, lng)]: [isNaN(lat) || isNaN(lng)]. *)
Definition invalidLatLng (c : number * number) : bool :=
  number_isNaN (fst c) || number_isNaN (snd c).

(** The exception [L.LatLng] throws on such a position. *)
Definition latLngError (c : number * number) : exn :=
  Error ("Invalid LatLng object: (" ++ number_toString (fst c) ++ ", "
         ++ number_toString (snd c) ++ ")").

(** [mapRef.current.setView(c, z)] on the mounted map.  Leaflet converts
    the position first and throws on [NaN], the map untouched.  Otherwise
    the view is set and Leaflet ends the call in a [moveend] event; the
    listener registered by the mount effect then runs as [onMoveEnd], a run
    of its own. *)
Definition mapSetView (c : number * number) (z : Z) : Eff State unit :=
  s <- getState ;;
  match mapRef s with
  | Some m =>
      if invalidLatLng c then throw (latLngError c)
      else modify (withMap (Some (setView c z m)) (tileLayerRef s))
  | None => ret tt
  end.

(** *** [fetchWikiArticles] *)

Definition geosearchUrl (lat lon : number) : string :=
  "https://en.wikipedia.org/w/api.php?action=query&list=geosearch&gsradius=10000&gscoord="
  ++ number_toString lat ++ "|" ++ number_toString lon
  ++ "&gslimit=50&format=json&origin=*".

Definition articlesUrl (pageIds : string) : string :=
  "https://en.wikipedia.org/w/api.php?action=query&pageids=" ++ pageIds
  ++ "&prop=extracts|pageimages|info|coordinates&exintro&explaintext&pithumbsize=100&inprop=url&format=json&origin=*".

(** [page.coordinates ? page.coordinates[0].<axis> : null]. *)
Definition coordinateOf (page : value) (axis : string) : Result value :=
  do coordinates <- getProp page "coordinates";
  if truthy coordinates then
    do again <- getProp page "coordinates";
    do first <- getFirst again;
    getProp first axis
  else inr VNull.

(** The object literal built for one page of the hydration response. *)
Definition toArticle (page : value) : Result WikiArticle :=
  do pageid' <- getProp page "pageid";
  do title' <- getProp page "title";
  do extract' <- getProp page "extract";
  do fullurl' <- getProp page "fullurl";
  do lat' <- coordinateOf page "lat";
  do lon' <- coordinateOf page "lon";
  do thumbnail' <- getProp page "thumbnail";
  inr {| pageid := pageid'; title := title'; extract := extract';
         fullurl := fullurl'; lat := lat'; lon := lon'; thumbnail := thumbnail' |}.

(** [article.lat !== null && article.lon !== null]. *)
Definition hasCoordinates (article : WikiArticle) : bool :=
  notNull (lat article) && notNull (lon article).

(** [data.query.geosearch.map((item) => item.pageid).join("|")]. *)
Definition pageIdsOf (data : value) : Result string :=
  do query <- getProp data "query";
  do geosearch <- getProp query "geosearch";
  do ids <- arrayMap (fun item => getProp item "pageid") geosearch;
  join "|" ids.

(** [Object.values(articleData.query.pages).map(...)]. *)
Definition articlesOf (articleData : value) : Result (list WikiArticle) :=
  do query <- getProp articleData "query";
  do pages <- getProp query "pages";
  do values <- Object_values pages;
  mapR toArticle values.

Definition fetchWikiArticles (lat lon : number) : Eff State unit :=
  tryCatch
    (response <- fetch net (plainGet (geosearchUrl lat lon)) ;;
     data <- json response ;;
     pageIds <- lift (pageIdsOf data) ;;
     if (String.length pageIds =? 0)%nat then
       setWikiArticles []
     else
       articleResponse <- fetch net (plainGet (articlesUrl pageIds)) ;;
       articleData <- json articleResponse ;;
       articles <- lift (articlesOf articleData) ;;
       emit (EvConsoleLog "Fetched articles:" [ArgCount (List.length articles)]) ;;
       setWikiArticles (filter hasCoordinates articles))
    (fun error =>
       emit (EvConsoleError "Error fetching Wikipedia articles:" [ArgError error]) ;;
       setWikiArticles []).

(** *** The place search *)

Definition searchUrl (q : string) : string :=
  "/api/search?q=" ++ encodeURIComponent q.

Definition handleResultSelect (result : value) : Eff State unit :=
  s <- getState ;;
  match mapRef s with
  | Some _ =>
      latValue <- lift (getProp result "lat") ;;
      latText <- lift (toString latValue) ;;
      lonValue <- lift (getProp result "lon") ;;
      lonText <- lift (toString lonValue) ;;
      mapSetView (parseFloat latText, parseFloat lonText) 13 ;;
      fetchWikiArticles (parseFloat latText) (parseFloat lonText)
  | None => ret tt
  end.

Definition handleSearch : Eff State unit :=
  s <- getState ;;
  if (2 <? String.length (searchQuery s))%nat then
    tryCatch
      (response <- fetch net (plainGet (searchUrl (searchQuery s))) ;;
       if negb (ok response) then
         throw (Error "Failed to fetch search results")
       else
         data <- json response ;;
         nonEmpty <- lift (lengthGtZero data) ;;
         if nonEmpty then
           first <- lift (getFirst data) ;;
           handleResultSelect first
         else ret tt)
      (fun error =>
         emit (EvConsoleError "Error fetching search results:" [ArgError error]))
  else ret tt.

(** *** The article browser *)

(** [setCurrentArticleIndex((prevIndex) => ...)], with [wikiArticles.length]
    read from the render the handler belongs to. *)
Definition navigateArticle (direction : Direction) (s : State) : State :=
  let len := Z.of_nat (List.length (wikiArticles s)) in
  match direction with
  | next =>
      withCurrentArticleIndex (remainder (plus (currentArticleIndex s) 1) len) s
  | prev =>
      withCurrentArticleIndex
        (remainder (plus (plus (currentArticleIndex s) (-1)) len) len) s
  end.

(** What the bottom-left card shows. *)
Record ArticleCard : Type := {
  shown : WikiArticle;
  ordinal : Index;
  total : nat;
  navigationDisabled : bool
}.

Inductive View : Type :=
| NoArticles
| Card (card : ArticleCard)
| RenderError (e : exn).

(** The card of the component's JSX.  [wikiArticles[currentArticleIndex]]
    is [undefined] outside the list, and reading [.title] of it throws. *)
Definition render (s : State) : View :=
  if (0 <? List.length (wikiArticles s))%nat then
    match at_index (wikiArticles s) (currentArticleIndex s) with
    | Some article =>
        Card {| shown := article;
                ordinal := plus (currentArticleIndex s) 1;
                total := List.length (wikiArticles s);
                navigationDisabled := (List.length (wikiArticles s) <=? 1)%nat |}
    | None => RenderError TypeError
    end
  else NoArticles.

(** Modelled from the spec: the [Button] component ([@/components/ui/button])
    is not among the sources.  The previous / next actions are available
    when their buttons are rendered, which is inside the article card only,
    and not [disabled]; an unavailable action does nothing. *)
Definition navigationAvailable (s : State) : bool :=
  match render s with
  | Card card => negb (navigationDisabled card)
  | _ => false
  end.

(** A click on the previous / next button of the rendered view. *)
Definition clickNavigate (direction : Direction) (s : State) : State :=
  if navigationAvailable s then navigateArticle direction s else s.

(** *** Mounting the map and its triggers *)

(** [L.map("map", ...).setView(c, z)]. *)
Definition L_map (c : number * number) (z : Z) : LeafletMap :=
  {| center := c; zoom := z; tileLayers := []; markers := [] |}.

(** [L.tileLayer(template, ...).addTo(m)]. *)
Definition addTileLayer (template : string) (m : LeafletMap) : LeafletMap :=
  setTileLayers (tileLayers m ++ [template])%list m.

(** [m.removeLayer(layer)] for a tile layer. *)
Definition removeTileLayer (template : string) (m : LeafletMap) : LeafletMap :=
  setTileLayers (filter (fun t => negb (String.eqb t template)) (tileLayers m)) m.

(** The first [useEffect]: it creates the map once. *)
Definition mountEffect (windowDefined : bool) : Eff State unit :=
  s <- getState ;;
  match windowDefined, mapRef s with
  | true, None =>
      let leaflet := L_map (literal "51.505", literal "-0.09") 13 in
      let leaflet := addTileLayer (mapLayers standard) leaflet in
      modify (withMap (Some leaflet) (Some (mapLayers standard)))
  | _, _ => ret tt
  end.

(** The callback of [navigator.geolocation.getCurrentPosition]. *)
Definition onPosition (latitude longitude : number) : Eff State unit :=
  modify (withUserLocation (Some (latitude, longitude))) ;;
  mapSetView (latitude, longitude) 13 ;;
  fetchWikiArticles latitude longitude.

(** The [moveend] listener. *)
Definition onMoveEnd : Eff State unit :=
  s <- getState ;;
  match mapRef s with
  | Some m => fetchWikiArticles (fst (center m)) (snd (center m))
  | None => ret tt
  end.

Definition changeMapLayer (layer : Layer) : Eff State unit :=
  modify (withCurrentLayer layer) ;;
  s <- getState ;;
  match mapRef s, tileLayerRef s with
  | Some m, Some old =>
      modify (withMap (Some (addTileLayer (mapLayers layer) (removeTileLayer old m)))
                      (Some (mapLayers layer)))
  | _, _ => ret tt
  end.

Definition centerOnUserLocation : Eff State unit :=
  s <- getState ;;
  match mapRef s, userLocation s with
  | Some _, Some loc => mapSetView loc 13
  | _, _ => ret tt
  end.

(** [L.marker(...).addTo(markersLayerRef.current)]. *)
Definition addMarker (mk : Marker) : Eff State unit :=
  modify (fun s =>
    match mapRef s with
    | Some m => withMap (Some (setMarkers (markers m ++ [mk])%list m)) (tileLayerRef s) s
    | None => s
    end).

(** [markersLayerRef.current.clearLayers()]. *)
Definition clearLayers : Eff State unit :=
  modify (fun s =>
    match mapRef s with
    | Some m => withMap (Some (setMarkers [] m)) (tileLayerRef s) s
    | None => s
    end).

(** *** The popup of a marker *)

(** The [div] that [createPopupContent] returns. *)
Record PopupContent : Type := {
  className : string;
  innerHTML : string
}.

Definition dquote : string := String "034"%char EmptyString.

Definition newline : string := String "010"%char EmptyString.

(** The [<img>] substitution of the template: empty without a thumbnail. *)
Definition popupImage (article : WikiArticle) : Result string :=
  if truthy (thumbnail article) then
    do source <- getProp (thumbnail article) "source";
    do src <- toString source;
    do alt <- toString (title article);
    inr ("<img src=" ++ dquote ++ src ++ dquote ++ " alt=" ++ dquote ++ alt ++ dquote
         ++ " class=" ++ dquote ++ "w-full h-32 object-cover mb-2" ++ dquote ++ ">")
  else inr "".

(** The template literal assigned to [innerHTML], substitution by
    substitution; nothing is escaped. *)
Definition createPopupContent (article : WikiArticle) : Result PopupContent :=
  do heading <- toString (title article);
  do image <- popupImage article;
  do sliced <- sliceFirst 100 (extract article);
  do summary <- toString sliced;
  do href <- toString (fullurl article);
  inr {| className := "wiki-popup";
         innerHTML :=
           newline
           ++ "      <h3 class=" ++ dquote ++ "text-lg font-semibold" ++ dquote ++ ">"
           ++ heading ++ "</h3>" ++ newline
           ++ "      " ++ image ++ newline
           ++ "      <p class=" ++ dquote ++ "text-sm mb-2" ++ dquote ++ ">"
           ++ summary ++ "...</p>" ++ newline
           ++ "      <a href=" ++ dquote ++ href ++ dquote
           ++ " target=" ++ dquote ++ "_blank" ++ dquote
           ++ " rel=" ++ dquote ++ "noopener noreferrer" ++ dquote
           ++ " class=" ++ dquote ++ "text-blue-500 hover:underline" ++ dquote
           ++ ">Read more</a>" ++ newline
           ++ "    " |}.

(** The body of [wikiArticles.forEach] in the marker effect: the marker is
    on the map before its popup is built, and an exception of
    [createPopupContent] leaves the loop. *)
Definition placeMarker (article : WikiArticle) : Eff State unit :=
  match lat article, lon article with
  | VNum y, VNum x =>
      addMarker {| position := (y, x); popup := article |} ;;
      content <- lift (createPopupContent article) ;;
      emit (EvConsoleLog "Added marker:"
              [ArgValue (title article); ArgValue (lat article); ArgValue (lon article)])
  | _, _ =>
      emit (EvConsoleWarn "Invalid coordinates for article:" [ArgValue (title article)])
  end.

(** The [useEffect] on [wikiArticles]: clear the layer group, then add a
    marker per article whose coordinates are numbers. *)
Definition markersEffect : Eff State unit :=
  s <- getState ;;
  match mapRef s with
  | Some _ =>
      emit (EvConsoleLog "Updating markers:" [ArgCount (List.length (wikiArticles s))]) ;;
      clearLayers ;;
      forEach placeMarker (wikiArticles s)
  | None => ret tt
  end.

End Component.

(** ** The search-only variant of the component ([src/unnamed/part_001]) *)

Module SearchOnly.
Section Component.
Context `{Runtime}.
Variable net : Network.

(** The map of this variant: the marker layer holds bare positions. *)
Record LeafletMap : Type := {
  center : number * number;
  zoom : Z;
  tileLayers : list string;
  markers : list (number * number)
}.

(** [markersLayerRef] is set together with [mapRef] and is part of the
    map. *)
Record State : Type := {
  searchQuery : string;
  searchResults : value;
  currentLayer : Layer;
  showControls : bool;
  mapRef : option LeafletMap;
  tileLayerRef : option string
}.

Definition initialState : State :=
  {| searchQuery := "";
     searchResults := VArr [];
     currentLayer := standard;
     showControls := false;
     mapRef := None;
     tileLayerRef := None |}.

Definition withSearchResults (results : value) (s : State) : State :=
  {| searchQuery := searchQuery s;
     searchResults := results;
     currentLayer := currentLayer s;
     showControls := showControls s;
     mapRef := mapRef s;
     tileLayerRef := tileLayerRef s |}.

Definition withMap (m : option LeafletMap) (tile : option string) (s : State) : State :=
  {| searchQuery := searchQuery s;
     searchResults := searchResults s;
     currentLayer := currentLayer s;
     showControls := showControls s;
     mapRef := m;
     tileLayerRef := tile |}.

(** [setView], then [clearLayers], then one marker at the new centre. *)
Definition showResult (c : number * number) (m : LeafletMap) : LeafletMap :=
  {| center := c; zoom := 13; tileLayers := tileLayers m; markers := [c] |}.

(** [setView] comes first and throws on a [NaN] coordinate, as in the
    component above: the view, the markers and the layer group are then as
    they were.  [L.marker] is given the position [setView] has accepted. *)
Definition handleResultSelect (result : value) : Eff State unit :=
  s <- getState ;;
  match mapRef s with
  | Some m =>
      latValue <- lift (getProp result "lat") ;;
      latText <- lift (toString latValue) ;;
      lonValue <- lift (getProp result "lon") ;;
      lonText <- lift (toString lonValue) ;;
      if invalidLatLng (parseFloat latText, parseFloat lonText) then
        throw (latLngError (parseFloat latText, parseFloat lonText))
      else
        modify (withMap (Some (showResult (parseFloat latText, parseFloat lonText) m))
                        (tileLayerRef s))
  | None => ret tt
  end.

Definition handleSearch : Eff State unit :=
  s <- getState ;;
  if (2 <? String.length (searchQuery s))%nat then
    tryCatch
      (response <- fetch net (plainGet ("/api/search?q=" ++ encodeURIComponent (searchQuery s))) ;;
       if negb (ok response) then
         throw (Error "Failed to fetch search results")
       else
         data <- json response ;;
         modify (withSearchResults data) ;;
         nonEmpty <- lift (lengthGtZero data) ;;
         if nonEmpty then
           first <- lift (getFirst data) ;;
           handleResultSelect first
         else ret tt)
      (fun error =>
         emit (EvConsoleError "Error fetching search results:" [ArgError error]) ;;
         modify (withSearchResults (VArr [])))
  else ret tt.

(** The mount effect of this variant. *)
Definition mountEffect (windowDefined : bool) : Eff State unit :=
  s <- getState ;;
  match windowDefined, mapRef s with
  | true, None =>
      modify (withMap
        (Some {| center := (literal "51.505", literal "-0.09");
                 zoom := 13;
                 tileLayers := [mapLayers standard];
                 markers := [] |})
        (Some (mapLayers standard)))
  | _, _ => ret tt
  end.

End Component.
End SearchOnly.

(** ** The geocode proxy ([src/unnamed/part_000]) *)

Section GeocodeProxy.
Context `{Runtime}.
Variable net : Network.

(** [NextResponse.json(body, { status })]. *)
Record HttpResponse : Type := {
  code : Z;
  payload : value
}.

(** [searchParams.get(name)]: the first value given for [name], or
    [null]. *)
Fixpoint searchParams_get (name : string) (params : list (string * string)) : option string :=
  match params with
  | [] => None
  | (k, v) :: rest => if String.eqb name k then Some v else searchParams_get name rest
  end.

(** [!query] for [query : string | null]. *)
Definition missing (query : option string) : bool :=
  match query with
  | None => true
  | Some q => String.eqb q ""
  end.

Definition errorBody (message : string) : value := VObj [("error", VStr message)].

Definition nominatimRequest (query : string) : Request :=
  {| url := "https://nominatim.openstreetmap.org/search?format=json&q="
            ++ encodeURIComponent query;
     headers := [("User-Agent", "YourAppName/1.0")] |}.

(** The route handler, applied to the search parameters of the request
    URL. *)
Definition GET (searchParams : list (string * string)) : Eff unit HttpResponse :=
  let query := searchParams_get "q" searchParams in
  if missing query then
    ret {| code := 400; payload := errorBody "Query parameter is required" |}
  else
    tryCatch
      (response <- fetch net (nominatimRequest (match query with Some q => q | None => "" end)) ;;
       if negb (ok response) then
         throw (Error "Failed to fetch search results")
       else
         data <- json response ;;
         ret {| code := 200; payload := data |})
      (fun error =>
         emit (EvConsoleError "Error fetching search results:" [ArgError error]) ;;
         ret {| code := 500; payload := errorBody "Failed to fetch search results" |}).

End GeocodeProxy.

(** ** Reading off one run of a handler *)

Section Runs.
Context `{Runtime}.

Definition outcome {S A : Type} (run : Result A * S * list Event) : Result A :=
  fst (fst run).

Definition finalState {S A : Type} (run : Result A * S * list Event) : S :=
  snd (fst run).

Definition effects {S A : Type} (run : Result A * S * list Event) : list Event :=
  snd run.

End Runs.

(** ** The two phases of [fetchWikiArticles] as values *)

Section Phases.
Context `{Runtime}.
Variable net : Network.

(** What [await (await fetch(req)).json()] evaluates to. *)
Definition settle (o : FetchOutcome) : Result value :=
  match o with
  | Rejected reason => inl (NetworkError reason)
  | Resolved r =>
      match body r with
      | Some v => inr v
      | None => inl SyntaxError
      end
  end.

(** The discovery phase: the joined page ids, or the exception that ends
    it. *)
Definition discovery (lat lon : number) : Result string :=
  do data <- settle (net (plainGet (geosearchUrl lat lon)));
  pageIdsOf data.

(** The hydration phase for the given ids: the articles built from the
    response, before filtering, or the exception that ends it. *)
Definition hydration (pageIds : string) : Result (list WikiArticle) :=
  do articleData <- settle (net (plainGet (articlesUrl pageIds)));
  articlesOf articleData.

(** The marker an article gets, if any: one per article whose [lat] and
    [lon] are both numbers. *)
Definition markerOf (article : WikiArticle) : list Marker :=
  match lat article, lon article with
  | VNum y, VNum x => [ {| position := (y, x); popup := article |} ]
  | _, _ => []
  end.

(** A value that is there: neither [undefined] nor [null]. *)
Definition present (v : value) : bool :=
  match v with
  | VUndefined | VNull => false
  | _ => true
  end.

End Phases.

(** ** Articles whose marker can be completed *)

Section Popups.
Context `{Runtime}.

(** The marker pass gets past an article when the article gets no marker,
    or when the popup of its marker can be built. *)
Definition popupBuilds (article : WikiArticle) : bool :=
  match markerOf article with
  | [] => true
  | _ =>
      match createPopupContent article with
      | inr _ => true
      | inl _ => false
      end
  end.

End Popups.

(** ** Sessions: the component driven by its events *)

Section Sessions.
Context `{Runtime}.

(** What can happen to the mounted component: the callbacks it registers,
    the user's gestures on the map and on the controls, and the marker
    effect. *)
Inductive Action : Type :=
| Locate (latitude longitude : number)
| Move (c : number * number) (z : Z)
| TypeQuery (q : string)
| Submit
| Click (direction : Direction)
| ToggleControls (pressed : bool)
| SelectLayer (choice : option Layer)
| CenterOnMe
| RefreshMarkers.

(** [onValueChange] of the layer toggle group: [value && changeMapLayer(value)],
    where the group reports the empty string ([None]) when the pressed item
    is released. *)
Definition onValueChange (choice : option Layer) : Eff State unit :=
  match choice with
  | Some layer => changeMapLayer layer
  | None => ret tt
  end.

(** One action on the rendered component.  [Move] is a [moveend]: Leaflet
    has a view and runs the listener.  It is the end of a pan or zoom
    gesture, and also the end of a [setView] made by one of the handlers, in
    which case the view is the one the handler has set.  The layer toggle
    group and the "Center on Me" button exist only while the controls are
    shown. *)
Definition dispatch (net : Network) (a : Action) : Eff State unit :=
  match a with
  | Locate latitude longitude => onPosition net latitude longitude
  | Move c z => mapSetView c z ;; onMoveEnd net
  | TypeQuery q => modify (withSearchQuery q)
  | Submit => handleSearch net
  | Click direction => modify (clickNavigate direction)
  | ToggleControls pressed => modify (withShowControls pressed)
  | SelectLayer choice =>
      s <- getState ;;
      if showControls s then onValueChange choice else ret tt
  | CenterOnMe =>
      s <- getState ;;
      if showControls s then centerOnUserLocation else ret tt
  | RefreshMarkers => markersEffect
  end.

(** A session: actions in order, each against the network of its moment.
    Each handler runs to its end before the next action starts, its awaits
    included; a step that ends in an exception leaves the state it had
    reached.  Rendering is not part of a step. *)
Fixpoint runSession (steps : list (Network * Action)) (s : State) : State :=
  match steps with
  | [] => s
  | (net, a) :: rest => runSession rest (finalState (dispatch net a s))
  end.

(** The position most recently received in a session. *)
Fixpoint lastPosition (steps : list (Network * Action))
    (known : option (number * number)) : option (number * number) :=
  match steps with
  | [] => known
  | (_, Locate latitude longitude) :: rest => lastPosition rest (Some (latitude, longitude))
  | _ :: rest => lastPosition rest known
  end.

(** Exactly one tile layer is mounted, the one of the selected layer, and
    [tileLayerRef] points at it. *)
Definition oneTileLayer (s : State) : Prop :=
  exists m, mapRef s = Some m
            /\ tileLayers m = [mapLayers (currentLayer s)]
            /\ tileLayerRef s = Some (mapLayers (currentLayer s)).

(** One state update that leaves the selected layer, the tile layers and
    the user location alone: the query, the controls, the cursor, a list of
    articles that passed the filter, the viewport, the markers. *)
Inductive touched : State -> State -> Prop :=
| touched_query (q : string) (s : State) :
    touched s (withSearchQuery q s)
| touched_controls (shown : bool) (s : State) :
    touched s (withShowControls shown s)
| touched_cursor (i : Index) (s : State) :
    touched s (withCurrentArticleIndex i s)
| touched_articles (articles : list WikiArticle) (s : State) :
    Forall (fun a => hasCoordinates a = true) articles ->
    touched s (withWikiArticles articles s)
| touched_view (c : number * number) (z : Z) (m : LeafletMap) (s : State) :
    mapRef s = Some m ->
    touched s (withMap (Some (setView c z m)) (tileLayerRef s) s)
| touched_markers (ms : list Marker) (m : LeafletMap) (s : State) :
    mapRef s = Some m ->
    touched s (withMap (Some (setMarkers ms m)) (tileLayerRef s) s).

(** Any number of such updates, one after the other. *)
Inductive evolved : State -> State -> Prop :=
| evolved_refl (s : State) : evolved s s
| evolved_step (s1 s2 s3 : State) : touched s1 s2 -> evolved s2 s3 -> evolved s1 s3.

(** The requests among the effects of a run, in order. *)
Definition requestsOf (trace : list Event) : list Request :=
  flat_map (fun ev => match ev with EvFetch req => [req] | _ => [] end) trace.

(** The two endpoints of the component: its own search route and the
    Wikipedia query API. *)
Definition componentEndpoint (req : Request) : bool :=
  String.prefix "/api/search?q=" (url req)
  || String.prefix "https://en.wikipedia.org/w/api.php?action=query&" (url req).

(** The effects of a session, step by step. *)
Fixpoint sessionEffects (steps : list (Network * Action)) (s : State) : list Event :=
  match steps with
  | [] => []
  | (net, a) :: rest =>
      (effects (dispatch net a s) ++ sessionEffects rest (finalState (dispatch net a s)))%list
  end.

End Sessions.

(** ** The user marker ([useEffect] on [userLocation]) *)

Section UserMarker.
Context `{Runtime}.

(** A marker object of the user's position: markers are told apart by
    identity, here the number of markers created before it. *)
Record UserMarker : Type := {
  markerId : nat;
  markerAt : number * number
}.

(** The user markers mounted on the map, [userMarkerRef], and the number of
    markers created so far; the component state above does not carry
    them. *)
Record UserLayer : Type := {
  userMarkers : list UserMarker;
  userMarkerRef : option UserMarker;
  created : nat
}.

Definition noUserMarker : UserLayer :=
  {| userMarkers := []; userMarkerRef := None; created := 0 |}.

(** [map.removeLayer(marker)]. *)
Definition removeLayer (marker : UserMarker) (mounted : list UserMarker) :
    list UserMarker :=
  filter (fun x => negb (markerId x =? markerId marker)%nat) mounted.

(** The effect: with a map and a location, the marker [userMarkerRef] holds
    is removed from the map, and a new marker at the location is added and
    referenced. *)
Definition userLocationEffect (s : State) (layer : UserLayer) : UserLayer :=
  match mapRef s, userLocation s with
  | Some _, Some location =>
      let cleared :=
        match userMarkerRef layer with
        | Some old => removeLayer old (userMarkers layer)
        | None => userMarkers layer
        end in
      let fresh := {| markerId := created layer; markerAt := location |} in
      {| userMarkers := (cleared ++ [fresh])%list;
         userMarkerRef := Some fresh;
         created := S (created layer) |}
  | _, _ => layer
  end.

(** The map shows the referenced marker and no other, and identities are
    fresh. *)
Definition tidy (layer : UserLayer) : Prop :=
  userMarkers layer
  = match userMarkerRef layer with
    | Some marker => [marker]
    | None => []
    end
  /\ forall marker, userMarkerRef layer = Some marker ->
                    (markerId marker < created layer)%nat.

End UserMarker.

(** ** The component behind its own proxy *)

Section Route.
Context `{Runtime}.

(** [JSON.parse(JSON.stringify(v))] for a value inside an array or an
    object: a finite number is printed by [Number::toString] and read back
    (so [-0] comes back as [0]), [NaN] and the infinities are printed as
    [null], and so is [undefined] inside an array; a property whose value is
    [undefined] is left out. *)
Fixpoint reparsed (v : value) : value :=
  match v with
  | VUndefined => VNull
  | VNull => VNull
  | VBool b => VBool b
  | VNum n =>
      if number_isFinite n then VNum (string_toNumber (number_toString n)) else VNull
  | VStr text => VStr text
  | VArr items => VArr (map reparsed items)
  | VObj props =>
      VObj ((fix go (ps : list (string * value)) : list (string * value) :=
               match ps with
               | [] => []
               | (key, x) :: rest =>
                   match x with
                   | VUndefined => go rest
                   | _ => (key, reparsed x) :: go rest
                   end
               end) props)
  end.

(** The body the browser parses from [NextResponse.json(v)].
    [JSON.stringify(undefined)] is no text at all, so there is nothing to
    parse; a body parsed upstream is never [undefined]. *)
Definition reserialised (v : value) : option value :=
  match v with
  | VUndefined => None
  | _ => Some (reparsed v)
  end.

(** A value that the round trip through JSON text gives back as it is: no
    [undefined] in it, and only finite numbers that [Number::toString]
    prints to a text that reads back as the same number. *)
Fixpoint survivesJson (v : value) : Prop :=
  match v with
  | VUndefined => False
  | VNull | VBool _ | VStr _ => True
  | VNum n => number_isFinite n = true /\ string_toNumber (number_toString n) = n
  | VArr items =>
      (fix all (xs : list value) : Prop :=
         match xs with
         | [] => True
         | x :: rest => survivesJson x /\ all rest
         end) items
  | VObj props =>
      (fix all (ps : list (string * value)) : Prop :=
         match ps with
         | [] => True
         | (_, x) :: rest => survivesJson x /\ all rest
         end) props
  end.

(** The response the browser gets from the route [/api/search] when the
    handler [GET] serves it against the upstream network: the status of the
    [NextResponse], and its payload after the route has serialised it and
    the browser has parsed it again.  Were the handler to throw, the
    framework would answer 500 without a JSON body. *)
Definition served (upstream : Network) (searchParams : list (string * string)) :
    FetchOutcome :=
  match outcome (GET upstream searchParams tt) with
  | inr response =>
      Resolved {| status := code response; body := reserialised (payload response) |}
  | inl _ => Resolved {| status := 500; body := None |}
  end.

End Route.

(** ** A runtime and a network to run the model on examples *)

(** Numbers carried by their decimal text: on the numerals used below the
    conversions between numbers and strings are the identity. *)
Definition textRuntime : Runtime :=
  {| number := string;
     number_toString := fun n => n;
     string_toNumber := fun s => s;
     parseFloat := fun s => s;
     number_truthy := fun n =>
       negb (String.eqb n "0" || String.eqb n "-0" || String.eqb n "NaN");
     number_gt0 := fun n =>
       negb (String.eqb n "0" || String.eqb n "-0" || String.eqb n "NaN"
             || String.prefix "-" n);
     number_isNaN := fun n => String.eqb n "NaN";
     number_isFinite := fun n =>
       negb (String.eqb n "NaN" || String.eqb n "Infinity" || String.eqb n "-Infinity");
     encodeURIComponent := fun s => s |}.

Section Examples.
#[local] Existing Instance textRuntime.

(** The geocoder's answer for Paris. *)
Definition parisResults : value :=
  VArr [ VObj [ ("lat", VStr "48.8566"); ("lon", VStr "2.3522");
                ("display_name", VStr "Paris, France") ] ].

(** A discovery response with three items. *)
Definition threeIds : value :=
  VObj [ ("query", VObj [ ("geosearch",
    VArr [ VObj [("pageid", VNum "1")];
           VObj [("pageid", VNum "2")];
           VObj [("pageid", VNum "3")] ]) ]) ].

(** Three pages: one with both coordinates, one without [coordinates], one
    whose coordinates entry has a [lat] and no [lon]. *)
Definition louvre : value :=
  VObj [ ("pageid", VNum "1"); ("title", VStr "Louvre");
         ("extract", VStr "A museum."); ("fullurl", VStr "https://en.wikipedia.org/wiki/Louvre");
         ("coordinates", VArr [ VObj [("lat", VNum "48.8611"); ("lon", VNum "2.3364")] ]) ].

Definition unlocated : value :=
  VObj [ ("pageid", VNum "2"); ("title", VStr "Unlocated");
         ("extract", VStr "No coordinates."); ("fullurl", VStr "https://en.wikipedia.org/wiki/Unlocated") ].

Definition halfLocated : value :=
  VObj [ ("pageid", VNum "3"); ("title", VStr "Half located");
         ("extract", VStr "A latitude only."); ("fullurl", VStr "https://en.wikipedia.org/wiki/Half");
         ("coordinates", VArr [ VObj [("lat", VNum "48.86")] ]) ].

Definition threePages : value :=
  VObj [ ("query", VObj [ ("pages",
    VObj [ ("1", louvre); ("2", unlocated); ("3", halfLocated) ]) ]) ].

Definition noIds : value :=
  VObj [ ("query", VObj [ ("geosearch", VArr []) ]) ].

Definition oneId : value :=
  VObj [ ("query", VObj [ ("geosearch", VArr [ VObj [("pageid", VNum "9")] ]) ]) ].

(** A discovery response with one item and the page that hydrates it. *)
Definition libertyId : value :=
  VObj [ ("query", VObj [ ("geosearch", VArr [ VObj [("pageid", VNum "5")] ]) ]) ].

Definition libertyPage : value :=
  VObj [ ("query", VObj [ ("pages", VObj [ ("5",
    VObj [ ("pageid", VNum "5"); ("title", VStr "Statue of Liberty");
           ("extract", VStr "A statue."); ("fullurl", VStr "https://en.wikipedia.org/wiki/Statue_of_Liberty");
           ("coordinates", VArr [ VObj [("lat", VNum "40.6892"); ("lon", VNum "-74.0445")] ]) ]) ]) ]) ].

Definition answer (v : value) : FetchOutcome :=
  Resolved {| status := 200; body := Some v |}.

(** Paris is known to the geocoder; around it there are three items; around
    New York there is one; around (0, 0) there are none; around (10, 10) there is one, whose details cannot
    be fetched; around (20, 20) the answer is an object without [query];
    every other request fails. *)
Definition demoNet : Network :=
  fun req =>
    if String.eqb (url req) (searchUrl "Paris") then answer parisResults
    else if String.eqb (url req) (url (nominatimRequest "Paris")) then answer parisResults
    else if String.eqb (url req) (geosearchUrl "48.8566" "2.3522") then answer threeIds
    else if String.eqb (url req) (articlesUrl "1|2|3") then answer threePages
    else if String.eqb (url req) (geosearchUrl "40.7128" "-74.006") then answer libertyId
    else if String.eqb (url req) (articlesUrl "5") then answer libertyPage
    else if String.eqb (url req) (geosearchUrl "0" "0") then answer noIds
    else if String.eqb (url req) (geosearchUrl "10" "10") then answer oneId
    else if String.eqb (url req) (geosearchUrl "20" "20") then answer (VObj [])
    else Rejected "Failed to fetch".

Definition mounted : State := finalState (mountEffect true initialState).

Definition article (name : string) : WikiArticle :=
  {| pageid := VNum "0"; title := VStr name; extract := VStr "";
     fullurl := VStr ""; lat := VNum "51.5"; lon := VNum "-0.1"; thumbnail := VUndefined |}.

(** One article on show. *)
Definition browsingOne : State := withWikiArticles [article "A"] mounted.

(** Three articles on show, the third one selected. *)
Definition browsingThird : State :=
  withCurrentArticleIndex (Idx 2)
    (withWikiArticles [article "A"; article "B"; article "C"] mounted).

(** A discovery response whose single item has no [pageid], served around
    (30, 30) on top of the network above. *)
Definition lonelyItem : value :=
  VObj [ ("query", VObj [ ("geosearch", VArr [ VObj [("title", VStr "Nameless")] ]) ]) ].

Definition widerNet : Network :=
  fun req =>
    if String.eqb (url req) (geosearchUrl "30" "30") then answer lonelyItem
    else demoNet req.

(** The geocoder's answer for Oslo as [response.json()] yields it when the
    text gives an importance of [1e999]: the number has overflowed to
    [Infinity]. *)
Definition osloFirst : value :=
  VObj [ ("lat", VStr "59.9139"); ("lon", VStr "10.7522");
         ("importance", VNum "Infinity") ].

Definition osloResults : value := VArr [osloFirst].

Definition overflowNet : Network :=
  fun req =>
    if String.eqb (url req) (url (nominatimRequest "Oslo")) then answer osloResults
    else demoNet req.

(** The browser's view of the search route when [GET] serves it. *)
Definition throughProxy (upstream : Network) : Network :=
  fun req =>
    if String.eqb (url req) (searchUrl "Paris") then served upstream [("q", "Paris")]
    else if String.eqb (url req) (searchUrl "Rome") then served upstream [("q", "Rome")]
    else if String.eqb (url req) (searchUrl "Oslo") then served upstream [("q", "Oslo")]
    else upstream req.

(** An article with coordinates and without an extract. *)
Definition bare : WikiArticle :=
  {| pageid := VNum "8"; title := VStr "Bare"; extract := VUndefined;
     fullurl := VStr "https://en.wikipedia.org/wiki/Bare";
     lat := VNum "48.85"; lon := VNum "2.35"; thumbnail := VUndefined |}.

(** An article with a long extract. *)
Definition verbose : WikiArticle :=
  {| pageid := VNum "7"; title := VStr "Eiffel Tower";
     extract := VStr "The Eiffel Tower is a wrought-iron lattice tower on the Champ de Mars in Paris, France. It is named after the engineer Gustave Eiffel.";
     fullurl := VStr "https://en.wikipedia.org/wiki/Eiffel_Tower";
     lat := VNum "48.8584"; lon := VNum "2.2945"; thumbnail := VUndefined |}.

Definition bareInTheMiddle : State :=
  withWikiArticles [article "A"; bare; article "C"] mounted.

(** A session: a search for Paris, the controls opened, the satellite layer
    chosen, a position received, a step through the articles, a move back
    to Paris. *)
Definition demoSession : list (Network * Action) :=
  [ (demoNet, TypeQuery "Paris");
    (demoNet, Submit);
    (demoNet, ToggleControls true);
    (demoNet, SelectLayer (Some satellite));
    (demoNet, Locate "40.7128" "-74.006");
    (demoNet, Click next);
    (demoNet, Move ("48.8566", "2.3522") 5);
    (demoNet, RefreshMarkers) ].




End Examples.

(** * Properties *)

(** ** The article browser *)

Section Browser.
Context `{Runtime}.

Lemma withCurrentArticleIndex_same (s : State) :
  withCurrentArticleIndex (currentArticleIndex s) s = s.
Proof. destruct s; reflexivity. Qed.

(** One step forwards from a cursor inside the list. *)
Lemma navigateArticle_next_at (s : State) (j : Z) :
  let n := Z.of_nat (List.length (wikiArticles s)) in
  (0 <= j < n)%Z ->
  navigateArticle next (withCurrentArticleIndex (Idx j) s)
  = withCurrentArticleIndex (Idx ((j + 1) mod n)) s.
Proof.
  intros n Hj. unfold navigateArticle, withCurrentArticleIndex; simpl.
  fold n. destruct (Z.eqb_spec n 0) as [E | _]; [lia |].
  rewrite Z.rem_mod_nonneg by lia. reflexivity.
Qed.

(** One step backwards from a cursor inside the list. *)
Lemma navigateArticle_prev_at (s : State) (j : Z) :
  let n := Z.of_nat (List.length (wikiArticles s)) in
  (0 <= j < n)%Z ->
  navigateArticle prev (withCurrentArticleIndex (Idx j) s)
  = withCurrentArticleIndex (Idx ((j - 1) mod n)) s.
Proof.
  intros n Hj. unfold navigateArticle, withCurrentArticleIndex; simpl.
  fold n. destruct (Z.eqb_spec n 0) as [E | _]; [lia |].
  rewrite Z.rem_mod_nonneg by lia.
  replace (j + -1 + n)%Z with ((j - 1) + 1 * n)%Z by lia.
  rewrite Z.mod_add by lia. reflexivity.
Qed.

(** With the cursor inside the list the card is rendered, and its buttons
    are enabled as soon as there are two articles. *)
Lemma navigationAvailable_in_range (s : State) (j : Z) :
  (0 <= j < Z.of_nat (List.length (wikiArticles s)))%Z ->
  navigationAvailable (withCurrentArticleIndex (Idx j) s)
  = negb (List.length (wikiArticles s) <=? 1)%nat.
Proof.
  intros Hj. unfold navigationAvailable, render. simpl.
  destruct (Nat.ltb_spec 0 (List.length (wikiArticles s))) as [_ | Hlen]; [| lia].
  destruct (Z.ltb_spec j 0) as [Hneg | _]; [lia |].
  destruct (nth_error (wikiArticles s) (Z.to_nat j)) as [a |] eqn:E; [reflexivity |].
  apply nth_error_None in E. lia.
Qed.

(** A click has the effect of the handler whenever the cursor is inside the
    list: with a single article both leave the cursor on it. *)
Lemma clickNavigate_in_range (d : Direction) (s : State) (j : Z) :
  (0 <= j < Z.of_nat (List.length (wikiArticles s)))%Z ->
  clickNavigate d (withCurrentArticleIndex (Idx j) s)
  = navigateArticle d (withCurrentArticleIndex (Idx j) s).
Proof.
  intros Hj. unfold clickNavigate.
  rewrite (navigationAvailable_in_range s j Hj).
  destruct (Nat.leb_spec (List.length (wikiArticles s)) 1) as [Hone | _]; [| reflexivity].
  assert (Hj0 : j = 0%Z) by lia. subst j.
  assert (Hmod : forall a : Z, (a mod Z.of_nat (List.length (wikiArticles s)))%Z = 0%Z).
  { intros a. replace (List.length (wikiArticles s)) with 1%nat by lia. apply Z.mod_1_r. }
  cbn [negb].
  destruct d;
    [rewrite navigateArticle_next_at by exact Hj
    | rewrite navigateArticle_prev_at by exact Hj];
    rewrite Hmod; reflexivity.
Qed.

(** Iterating a step that moves the cursor by [delta] modulo the length. *)
Lemma iterate_step (step : State -> State) (delta : Z) (s : State) (i : Z) (k : nat) :
  let n := Z.of_nat (List.length (wikiArticles s)) in
  (forall j, (0 <= j < n)%Z ->
     step (withCurrentArticleIndex (Idx j) s)
     = withCurrentArticleIndex (Idx ((j + delta) mod n)) s) ->
  (0 <= i < n)%Z ->
  Nat.iter k step (withCurrentArticleIndex (Idx i) s)
  = withCurrentArticleIndex (Idx ((i + Z.of_nat k * delta) mod n)) s.
Proof.
  intros n Hstep Hi. induction k as [| k IH].
  - simpl. rewrite Z.add_0_r, Z.mod_small by lia. reflexivity.
  - rewrite Nat.iter_succ, IH.
    rewrite Hstep by (apply Z.mod_pos_bound; lia).
    rewrite Zplus_mod_idemp_l. f_equal. f_equal. f_equal. lia.
Qed.

(** A full turn: as many steps as there are articles. *)
Lemma full_turn (step : State -> State) (delta : Z) (s : State) (i : Z) :
  let n := Z.of_nat (List.length (wikiArticles s)) in
  (forall j, (0 <= j < n)%Z ->
     step (withCurrentArticleIndex (Idx j) s)
     = withCurrentArticleIndex (Idx ((j + delta) mod n)) s) ->
  currentArticleIndex s = Idx i ->
  (0 <= i < n)%Z ->
  Nat.iter (List.length (wikiArticles s)) step s = s.
Proof.
  intros n Hstep Hcur Hi.
  assert (Hs : withCurrentArticleIndex (Idx i) s = s)
    by (rewrite <- Hcur; apply withCurrentArticleIndex_same).
  pose proof (iterate_step step delta s i (List.length (wikiArticles s)) Hstep Hi) as Hn.
  rewrite Hs in Hn. rewrite Hn. fold n.
  replace (i + n * delta)%Z with (i + delta * n)%Z by lia.
  rewrite Z.mod_add, Z.mod_small by lia. exact Hs.
Qed.

(** C9.  On a list of [N > 0] articles with the cursor at any [i] in
    [[0, N)], calling [navigateArticle("next")] [N] times brings the
    component back to the state it started from, cursor included, and so
    does calling [navigateArticle("prev")] [N] times; the same holds for
    [N] clicks on the next button and for [N] clicks on the previous
    button. *)
Theorem navigateArticle_full_cycle (s : State) (i : Z) :
  (0 < List.length (wikiArticles s))%nat ->
  currentArticleIndex s = Idx i ->
  (0 <= i < Z.of_nat (List.length (wikiArticles s)))%Z ->
  Nat.iter (List.length (wikiArticles s)) (navigateArticle next) s = s
  /\ Nat.iter (List.length (wikiArticles s)) (navigateArticle prev) s = s
  /\ Nat.iter (List.length (wikiArticles s)) (clickNavigate next) s = s
  /\ Nat.iter (List.length (wikiArticles s)) (clickNavigate prev) s = s.
Proof.
  intros Hpos Hcur Hi. repeat split.
  - apply (full_turn (navigateArticle next) 1 s i); try assumption.
    intros j Hj. apply navigateArticle_next_at. exact Hj.
  - apply (full_turn (navigateArticle prev) (-1) s i); try assumption.
    intros j Hj. rewrite navigateArticle_prev_at by exact Hj. reflexivity.
  - apply (full_turn (clickNavigate next) 1 s i); try assumption.
    intros j Hj. rewrite clickNavigate_in_range by exact Hj.
    apply navigateArticle_next_at. exact Hj.
  - apply (full_turn (clickNavigate prev) (-1) s i); try assumption.
    intros j Hj. rewrite clickNavigate_in_range by exact Hj.
    rewrite navigateArticle_prev_at by exact Hj. reflexivity.
Qed.

(** With at most one article the view offers no navigation: the empty list
    renders no card, a single article renders disabled buttons. *)
Lemma navigationAvailable_short (s : State) :
  (List.length (wikiArticles s) <= 1)%nat -> navigationAvailable s = false.
Proof.
  intros Hlen. unfold navigationAvailable, render.
  destruct (wikiArticles s) as [| a [| b rest]]; simpl in *.
  - reflexivity.
  - destruct (at_index [a] (currentArticleIndex s)); reflexivity.
  - lia.
Qed.

(** Called on an empty list, the handler itself computes a remainder by
    zero; the view never offers that call. *)
Lemma navigateArticle_empty_list (s : State) (d : Direction) :
  wikiArticles s = [] ->
  currentArticleIndex (navigateArticle d s) = IdxNaN.
Proof.
  intros E. unfold navigateArticle. rewrite E.
  destruct d, (currentArticleIndex s); reflexivity.
Qed.

(** C8.  With at most one article (none included) the navigation actions
    are unavailable, a click on previous or next leaves the component
    state, cursor included, unchanged, and with one article and the cursor
    on it [navigateArticle] itself changes nothing. *)
Theorem navigation_noop_on_short_list (s : State) (d : Direction) :
  (List.length (wikiArticles s) <= 1)%nat ->
  navigationAvailable s = false
  /\ clickNavigate d s = s
  /\ (forall i : Z,
        currentArticleIndex s = Idx i ->
        (0 <= i < Z.of_nat (List.length (wikiArticles s)))%Z ->
        navigateArticle d s = s).
Proof.
  intros Hlen. pose proof (navigationAvailable_short s Hlen) as Hnav.
  split; [exact Hnav |]. split.
  - unfold clickNavigate. rewrite Hnav. reflexivity.
  - intros i Hcur Hi.
    assert (Hone : List.length (wikiArticles s) = 1%nat) by lia.
    assert (Hzero : i = 0%Z) by lia. subst i.
    rewrite <- (withCurrentArticleIndex_same s) at 2.
    unfold navigateArticle. rewrite Hcur, Hone.
    destruct d; reflexivity.
Qed.

(** *** The cursor under navigation *)

(** With the cursor inside the list the card shows the article under it,
    numbered from one. *)
Lemma render_in_range (s : State) (j : Z) :
  (0 <= j < Z.of_nat (List.length (wikiArticles s)))%Z ->
  exists a,
    nth_error (wikiArticles s) (Z.to_nat j) = Some a
    /\ render (withCurrentArticleIndex (Idx j) s)
       = Card {| shown := a;
                 ordinal := Idx (j + 1);
                 total := List.length (wikiArticles s);
                 navigationDisabled := (List.length (wikiArticles s) <=? 1)%nat |}.
Proof.
  intros Hj. unfold render. simpl.
  destruct (Nat.ltb_spec 0 (List.length (wikiArticles s))) as [_ | Hlen]; [| lia].
  destruct (Z.ltb_spec j 0) as [Hneg | _]; [lia |].
  destruct (nth_error (wikiArticles s) (Z.to_nat j)) as [a |] eqn:E.
  - exists a. split; reflexivity.
  - apply nth_error_None in E. lia.
Qed.

(** Any sequence of steps, each moving the cursor by one modulo the length,
    keeps the cursor inside the list. *)
Lemma steps_stay_in_range (step : Direction -> State -> State) (s : State)
    (moves : list Direction) (i : Z) :
  let n := Z.of_nat (List.length (wikiArticles s)) in
  (forall d j, (0 <= j < n)%Z ->
     exists j', (0 <= j' < n)%Z
                /\ step d (withCurrentArticleIndex (Idx j) s)
                   = withCurrentArticleIndex (Idx j') s) ->
  (0 <= i < n)%Z ->
  exists j, (0 <= j < n)%Z
            /\ fold_left (fun st d => step d st) moves (withCurrentArticleIndex (Idx i) s)
               = withCurrentArticleIndex (Idx j) s.
Proof.
  intros n Hstep. revert i. induction moves as [| d rest IH]; intros i Hi.
  - exists i. split; [exact Hi | reflexivity].
  - simpl. destruct (Hstep d i Hi) as (j' & Hj' & ->). apply IH. exact Hj'.
Qed.

Lemma navigateArticle_in_range (d : Direction) (s : State) (j : Z) :
  let n := Z.of_nat (List.length (wikiArticles s)) in
  (0 <= j < n)%Z ->
  exists j', (0 <= j' < n)%Z
             /\ navigateArticle d (withCurrentArticleIndex (Idx j) s)
                = withCurrentArticleIndex (Idx j') s.
Proof.
  intros n Hj. destruct d.
  - exists ((j + 1) mod n)%Z. split; [apply Z.mod_pos_bound; lia |].
    apply navigateArticle_next_at. exact Hj.
  - exists ((j - 1) mod n)%Z. split; [apply Z.mod_pos_bound; lia |].
    apply navigateArticle_prev_at. exact Hj.
Qed.

(** From a cursor inside the list, no sequence of calls of
    [navigateArticle], and no sequence of clicks on the two buttons, takes
    the cursor out of the list or touches the list: the cursor is never
    [NaN], and the card keeps showing the article under the cursor, numbered
    between 1 and the length. *)
Theorem navigation_keeps_cursor_in_range
    (s : State) (i : Z) (moves : list Direction) (byClick : bool) :
  currentArticleIndex s = Idx i ->
  (0 <= i < Z.of_nat (List.length (wikiArticles s)))%Z ->
  let step := if byClick then clickNavigate else navigateArticle in
  let s' := fold_left (fun st d => step d st) moves s in
  exists (j : Z) (a : WikiArticle),
    s' = withCurrentArticleIndex (Idx j) s
    /\ (0 <= j < Z.of_nat (List.length (wikiArticles s)))%Z
    /\ nth_error (wikiArticles s) (Z.to_nat j) = Some a
    /\ render s'
       = Card {| shown := a;
                 ordinal := Idx (j + 1);
                 total := List.length (wikiArticles s);
                 navigationDisabled := (List.length (wikiArticles s) <=? 1)%nat |}.
Proof.
  intros Hcur Hi step s'.
  assert (Hs : withCurrentArticleIndex (Idx i) s = s)
    by (rewrite <- Hcur; apply withCurrentArticleIndex_same).
  assert (Hstep : forall d j,
            (0 <= j < Z.of_nat (List.length (wikiArticles s)))%Z ->
            exists j', (0 <= j' < Z.of_nat (List.length (wikiArticles s)))%Z
                       /\ step d (withCurrentArticleIndex (Idx j) s)
                          = withCurrentArticleIndex (Idx j') s).
  { intros d j Hj. unfold step. destruct byClick.
    - rewrite clickNavigate_in_range by exact Hj. apply navigateArticle_in_range. exact Hj.
    - apply navigateArticle_in_range. exact Hj. }
  destruct (steps_stay_in_range step s moves i Hstep Hi) as (j & Hj & Hfold).
  rewrite Hs in Hfold.
  destruct (render_in_range s j Hj) as (a & Hnth & Hrender).
  exists j, a. unfold s'. rewrite Hfold. repeat split; try assumption; lia.
Qed.

(** From a cursor inside the list, next and previous undo each other. *)
Theorem next_and_prev_are_inverse (s : State) (i : Z) :
  currentArticleIndex s = Idx i ->
  (0 <= i < Z.of_nat (List.length (wikiArticles s)))%Z ->
  navigateArticle prev (navigateArticle next s) = s
  /\ navigateArticle next (navigateArticle prev s) = s.
Proof.
  intros Hcur Hi.
  assert (Hs : withCurrentArticleIndex (Idx i) s = s)
    by (rewrite <- Hcur; apply withCurrentArticleIndex_same).
  set (n := Z.of_nat (List.length (wikiArticles s))) in *.
  assert (Hn : (0 < n)%Z) by lia.
  rewrite <- Hs at 1 3. split.
  - rewrite navigateArticle_next_at by exact Hi.
    rewrite navigateArticle_prev_at by (apply Z.mod_pos_bound; lia).
    fold n. rewrite Zminus_mod_idemp_l.
    replace (i + 1 - 1)%Z with i by lia. rewrite Z.mod_small by lia. exact Hs.
  - rewrite navigateArticle_prev_at by exact Hi.
    rewrite navigateArticle_next_at by (apply Z.mod_pos_bound; lia).
    fold n. rewrite Zplus_mod_idemp_l.
    replace (i - 1 + 1)%Z with i by lia. rewrite Z.mod_small by lia. exact Hs.
Qed.

End Browser.

(** ** The nearby-content fetch *)

Section Fetch.
Context `{Runtime}.
Variable net : Network.

(** [fetchWikiArticles] never throws; its result is decided by the two
    phases. *)
Lemma fetchWikiArticles_run (lat lon : number) (s : State) :
  fetchWikiArticles net lat lon s =
  match discovery net lat lon with
  | inl e =>
      (inr tt, withWikiArticles [] s,
       [EvFetch (plainGet (geosearchUrl lat lon));
        EvConsoleError "Error fetching Wikipedia articles:" [ArgError e]])
  | inr pageIds =>
      if (String.length pageIds =? 0)%nat then
        (inr tt, withWikiArticles [] s, [EvFetch (plainGet (geosearchUrl lat lon))])
      else
        match hydration net pageIds with
        | inl e =>
            (inr tt, withWikiArticles [] s,
             [EvFetch (plainGet (geosearchUrl lat lon));
              EvFetch (plainGet (articlesUrl pageIds));
              EvConsoleError "Error fetching Wikipedia articles:" [ArgError e]])
        | inr articles =>
            (inr tt, withWikiArticles (filter hasCoordinates articles) s,
             [EvFetch (plainGet (geosearchUrl lat lon));
              EvFetch (plainGet (articlesUrl pageIds));
              EvConsoleLog "Fetched articles:" [ArgCount (List.length articles)]])
        end
  end.
Proof.
  unfold fetchWikiArticles, discovery, hydration, settle, tryCatch, bind, fetch, json,
    lift, setWikiArticles, modify, emit, ret, throw, bindR.
  destruct (net (plainGet (geosearchUrl lat lon))) as [reason | r]; [reflexivity |].
  destruct (body r) as [data |]; [| reflexivity].
  destruct (pageIdsOf data) as [e | pageIds]; [reflexivity |].
  destruct (String.length pageIds =? 0)%nat; [reflexivity |].
  destruct (net (plainGet (articlesUrl pageIds))) as [reason | r2]; [reflexivity |].
  destruct (body r2) as [articleData |]; [| reflexivity].
  destruct (articlesOf articleData) as [e | articles]; reflexivity.
Qed.

(** The fetch only ever replaces the article list: every other state cell,
    the cursor included, is left as it was, and the first effect is the
    discovery request. *)
Lemma fetchWikiArticles_frame (lat lon : number) (s : State) :
  exists articles rest,
    outcome (fetchWikiArticles net lat lon s) = inr tt
    /\ finalState (fetchWikiArticles net lat lon s) = withWikiArticles articles s
    /\ effects (fetchWikiArticles net lat lon s)
       = EvFetch (plainGet (geosearchUrl lat lon)) :: rest.
Proof.
  rewrite fetchWikiArticles_run.
  destruct (discovery net lat lon) as [e | pageIds]; [repeat eexists |].
  destruct (String.length pageIds =? 0)%nat; [repeat eexists |].
  destruct (hydration net pageIds); repeat eexists.
Qed.

Lemma fetchWikiArticles_keeps_cursor (lat lon : number) (s : State) :
  currentArticleIndex (finalState (fetchWikiArticles net lat lon s))
  = currentArticleIndex s.
Proof.
  destruct (fetchWikiArticles_frame lat lon s) as (articles & rest & _ & E & _).
  rewrite E. reflexivity.
Qed.

Lemma settle_failed (o : FetchOutcome) :
  failed o = true <-> exists e, settle o = inl e.
Proof.
  unfold failed, settle. destruct o as [reason | r].
  - split; [eexists; reflexivity | reflexivity].
  - destruct (body r).
    + split; [discriminate | intros [e E]; discriminate].
    + split; [eexists; reflexivity | reflexivity].
Qed.

(** C3.  If a request issued by [fetchWikiArticles], the discovery request
    or the hydration request, fails (the [fetch] rejects or the body does
    not parse), the article list ends up empty whatever it held before. *)
Theorem fetch_failure_empties_list (lat lon : number) (s : State) (req : Request) :
  In (EvFetch req) (effects (fetchWikiArticles net lat lon s)) ->
  failed (net req) = true ->
  wikiArticles (finalState (fetchWikiArticles net lat lon s)) = [].
Proof.
  rewrite fetchWikiArticles_run. intros Hin Hfail.
  apply settle_failed in Hfail. destruct Hfail as [e He].
  unfold discovery, hydration in *.
  destruct (settle (net (plainGet (geosearchUrl lat lon)))) as [e1 | data] eqn:E1;
    simpl in *; [reflexivity |].
  destruct (pageIdsOf data) as [e2 | pageIds]; simpl in *; [reflexivity |].
  destruct (String.length pageIds =? 0)%nat; simpl in *; [reflexivity |].
  destruct (settle (net (plainGet (articlesUrl pageIds)))) as [e3 | articleData] eqn:E3;
    simpl in *; [reflexivity |].
  destruct (articlesOf articleData) as [e4 | articles]; simpl in *; [reflexivity |].
  destruct Hin as [Hin | [Hin | [Hin | []]]]; try discriminate;
    injection Hin as <-; congruence.
Qed.

(** Any exception in either phase, a malformed response included, empties
    the list as well. *)
Lemma fetch_exception_empties_list (lat lon : number) (s : State) (e : exn) :
  (discovery net lat lon = inl e
   \/ exists pageIds, discovery net lat lon = inr pageIds
                      /\ hydration net pageIds = inl e) ->
  wikiArticles (finalState (fetchWikiArticles net lat lon s)) = [].
Proof.
  rewrite fetchWikiArticles_run. intros [E | (pageIds & E1 & E2)].
  - rewrite E. reflexivity.
  - rewrite E1. destruct (String.length pageIds =? 0)%nat; [reflexivity |].
    rewrite E2. reflexivity.
Qed.

(** The hydration request never coincides with the discovery request. *)
Lemma articlesUrl_not_geosearchUrl (pageIds : string) (lat lon : number) :
  plainGet (articlesUrl pageIds) <> plainGet (geosearchUrl lat lon).
Proof.
  unfold plainGet, articlesUrl, geosearchUrl. intros E.
  injection E as E. simpl in E. discriminate E.
Qed.

(** C6.  When the discovery response lists no item ([data.query.geosearch]
    is the empty array), the article list becomes empty, the discovery
    request is the only effect of the run, and no hydration request is
    issued. *)
Theorem no_ids_no_hydration (lat lon : number) (s : State)
    (r : Response) (data query : value) :
  net (plainGet (geosearchUrl lat lon)) = Resolved r ->
  body r = Some data ->
  getProp data "query" = inr query ->
  getProp query "geosearch" = inr (VArr []) ->
  wikiArticles (finalState (fetchWikiArticles net lat lon s)) = []
  /\ effects (fetchWikiArticles net lat lon s)
     = [EvFetch (plainGet (geosearchUrl lat lon))]
  /\ forall pageIds : string,
       ~ In (EvFetch (plainGet (articlesUrl pageIds)))
            (effects (fetchWikiArticles net lat lon s)).
Proof.
  intros Hnet Hbody Hquery Hgeo.
  assert (Hrun : fetchWikiArticles net lat lon s
                 = (inr tt, withWikiArticles [] s,
                    [EvFetch (plainGet (geosearchUrl lat lon))])).
  { rewrite fetchWikiArticles_run. unfold discovery, settle, pageIdsOf.
    rewrite Hnet, Hbody. simpl. rewrite Hquery. simpl. rewrite Hgeo. reflexivity. }
  rewrite Hrun. split; [reflexivity |]. split; [reflexivity |].
  intros pageIds [Hin | []].
  apply (articlesUrl_not_geosearchUrl pageIds lat lon). congruence.
Qed.

(** *** Which items reach the final list *)

Lemma mapR_In {A B : Type} (f : A -> Result B) (l : list A) (ys : list B) :
  mapR f l = inr ys ->
  forall y, In y ys <-> exists x, In x l /\ f x = inr y.
Proof.
  revert ys. induction l as [| x l IH]; intros ys E y; simpl in E.
  - injection E as <-. split; [intros [] | intros (x & [] & _)].
  - destruct (f x) as [e | b] eqn:Ex; simpl in E; [discriminate |].
    destruct (mapR f l) as [e | bs]; simpl in E; [discriminate |].
    injection E as <-. specialize (IH bs eq_refl y). split.
    + intros [<- | Hin].
      * exists x. split; [left; reflexivity | exact Ex].
      * apply IH in Hin. destruct Hin as (x' & Hx' & Ex').
        exists x'. split; [right; exact Hx' | exact Ex'].
    + intros (x' & [<- | Hx'] & Ex').
      * left. congruence.
      * right. apply IH. exists x'. split; assumption.
Qed.

(** The coordinates of an article are what [coordinateOf] reads off its
    page. *)
Lemma toArticle_coordinates (page : value) (a : WikiArticle) :
  toArticle page = inr a ->
  coordinateOf page "lat" = inr (lat a) /\ coordinateOf page "lon" = inr (lon a).
Proof.
  unfold toArticle. intros E.
  destruct (getProp page "pageid"); simpl in E; [discriminate |].
  destruct (getProp page "title"); simpl in E; [discriminate |].
  destruct (getProp page "extract"); simpl in E; [discriminate |].
  destruct (getProp page "fullurl"); simpl in E; [discriminate |].
  destruct (coordinateOf page "lat"); simpl in E; [discriminate |].
  destruct (coordinateOf page "lon"); simpl in E; [discriminate |].
  destruct (getProp page "thumbnail"); simpl in E; [discriminate |].
  injection E as <-. split; reflexivity.
Qed.

(** A page without [coordinates] gets [null] for both. *)
Lemma coordinateOf_absent (page c : value) (axis : string) :
  getProp page "coordinates" = inr c ->
  truthy c = false ->
  coordinateOf page axis = inr VNull.
Proof.
  intros Hc Hfalse. unfold coordinateOf. rewrite Hc. simpl. rewrite Hfalse. reflexivity.
Qed.

(** A page with [coordinates] gets what the first entry holds. *)
Lemma coordinateOf_first (page c first : value) (axis : string) :
  getProp page "coordinates" = inr c ->
  truthy c = true ->
  getFirst c = inr first ->
  coordinateOf page axis = getProp first axis.
Proof.
  intros Hc Htrue Hfirst. unfold coordinateOf. rewrite Hc. simpl.
  rewrite Htrue. simpl. rewrite Hfirst. reflexivity.
Qed.

Lemma notNull_true (v : value) : notNull v = true <-> v <> VNull.
Proof. destruct v; simpl; split; congruence. Qed.

Lemma hasCoordinates_true (a : WikiArticle) :
  hasCoordinates a = true <-> lat a <> VNull /\ lon a <> VNull.
Proof.
  unfold hasCoordinates. rewrite andb_true_iff, !notNull_true. reflexivity.
Qed.

(** What the filter keeps.  For a hydration response that is processed
    without an exception, an article is in the final list exactly when it
    was built from one of the pages of the response and neither its [lat]
    nor its [lon] is [null].  A page without [coordinates] is excluded, and
    so is a page whose first coordinates entry holds [null] for [lat] or for
    [lon]. *)
Theorem final_list_keeps_non_null_coordinates
    (lat0 lon0 : number) (s : State)
    (r1 r2 : Response) (data articleData query pagesObject : value)
    (pageIds : string) (pages : list value) (articles : list WikiArticle) :
  net (plainGet (geosearchUrl lat0 lon0)) = Resolved r1 ->
  body r1 = Some data ->
  pageIdsOf data = inr pageIds ->
  pageIds <> "" ->
  net (plainGet (articlesUrl pageIds)) = Resolved r2 ->
  body r2 = Some articleData ->
  getProp articleData "query" = inr query ->
  getProp query "pages" = inr pagesObject ->
  Object_values pagesObject = inr pages ->
  mapR toArticle pages = inr articles ->
  let final := wikiArticles (finalState (fetchWikiArticles net lat0 lon0 s)) in
  (forall a : WikiArticle,
     In a final <->
     (exists page, In page pages /\ toArticle page = inr a)
     /\ lat a <> VNull /\ lon a <> VNull)
  /\ (forall page a c,
        toArticle page = inr a ->
        getProp page "coordinates" = inr c ->
        truthy c = false ->
        ~ In a final)
  /\ (forall page a c first,
        toArticle page = inr a ->
        getProp page "coordinates" = inr c ->
        truthy c = true ->
        getFirst c = inr first ->
        getProp first "lat" = inr VNull \/ getProp first "lon" = inr VNull ->
        ~ In a final).
Proof.
  intros Hnet1 Hbody1 Hids Hnonempty Hnet2 Hbody2 Hquery Hpages Hvalues Hmap final.
  assert (Hfinal : final = filter hasCoordinates articles).
  { unfold final. rewrite fetchWikiArticles_run.
    unfold discovery, hydration, settle, articlesOf.
    rewrite Hnet1, Hbody1. simpl. rewrite Hids.
    destruct pageIds as [| c rest]; [congruence |]. simpl.
    rewrite Hnet2, Hbody2. simpl. rewrite Hquery. simpl. rewrite Hpages. simpl.
    rewrite Hvalues. simpl. rewrite Hmap. reflexivity. }
  assert (Hmem : forall a, In a final <-> In a articles /\ lat a <> VNull /\ lon a <> VNull).
  { intros a. rewrite Hfinal, filter_In, hasCoordinates_true. reflexivity. }
  split; [| split].
  - intros a. rewrite Hmem, (mapR_In toArticle pages articles Hmap a). reflexivity.
  - intros page a c Ha Hc Hfalse Hin. apply Hmem in Hin.
    destruct Hin as (_ & Hlat & _). apply Hlat.
    destruct (toArticle_coordinates page a Ha) as [Elat _].
    rewrite (coordinateOf_absent page c "lat" Hc Hfalse) in Elat. congruence.
  - intros page a c first Ha Hc Htrue Hfirst Hnull Hin. apply Hmem in Hin.
    destruct Hin as (_ & Hlat & Hlon).
    destruct (toArticle_coordinates page a Ha) as [Elat Elon].
    rewrite (coordinateOf_first page c first "lat" Hc Htrue Hfirst) in Elat.
    rewrite (coordinateOf_first page c first "lon" Hc Htrue Hfirst) in Elon.
    destruct Hnull as [E | E]; rewrite E in *; congruence.
Qed.

(** *** The requests of a fetch *)

Lemma geosearch_on_endpoint (lat lon : number) :
  componentEndpoint (plainGet (geosearchUrl lat lon)) = true.
Proof. reflexivity. Qed.

Lemma articles_on_endpoint (pageIds : string) :
  componentEndpoint (plainGet (articlesUrl pageIds)) = true.
Proof. reflexivity. Qed.

(** The whole of a run: it completes, it replaces the list by articles that
    passed the filter, and its requests go to the Wikipedia API, the
    discovery request first. *)
Lemma fetchWikiArticles_shape (lat lon : number) (s : State) :
  exists articles rest,
    fetchWikiArticles net lat lon s
    = (inr tt, withWikiArticles articles s,
       EvFetch (plainGet (geosearchUrl lat lon)) :: rest)
    /\ Forall (fun a => hasCoordinates a = true) articles
    /\ Forall (fun req => componentEndpoint req = true)
         (requestsOf (EvFetch (plainGet (geosearchUrl lat lon)) :: rest)).
Proof.
  rewrite fetchWikiArticles_run.
  assert (Hd : forall more,
            Forall (fun req => componentEndpoint req = true) more ->
            Forall (fun req => componentEndpoint req = true)
              (plainGet (geosearchUrl lat lon) :: more)).
  { intros more Hmore. constructor; [apply geosearch_on_endpoint | exact Hmore]. }
  destruct (discovery net lat lon) as [e | pageIds].
  { eexists. eexists. split; [reflexivity |]. split; [constructor |].
    simpl. apply Hd. constructor. }
  destruct (String.length pageIds =? 0)%nat.
  { eexists. eexists. split; [reflexivity |]. split; [constructor |].
    simpl. apply Hd. constructor. }
  destruct (hydration net pageIds) as [e | articles].
  - eexists. eexists. split; [reflexivity |]. split; [constructor |].
    simpl. apply Hd. constructor; [apply articles_on_endpoint | constructor].
  - eexists. eexists. split; [reflexivity |]. split.
    + apply Forall_forall. intros a Ha. apply filter_In in Ha. apply Ha.
    + simpl. apply Hd. constructor; [apply articles_on_endpoint | constructor].
Qed.

(** A fetch issues the discovery request, always and first.  It issues one
    more request exactly when discovery yields a non-empty string of ids,
    and that request is the hydration request for this string. *)
Theorem fetch_requests_in_order (lat lon : number) (s : State) :
  let sent := requestsOf (effects (fetchWikiArticles net lat lon s)) in
  (exists more, sent = plainGet (geosearchUrl lat lon) :: more)
  /\ (forall pageIds,
        discovery net lat lon = inr pageIds ->
        pageIds <> "" ->
        sent = [plainGet (geosearchUrl lat lon); plainGet (articlesUrl pageIds)])
  /\ ((forall pageIds, discovery net lat lon = inr pageIds -> pageIds = "") ->
        sent = [plainGet (geosearchUrl lat lon)]).
Proof.
  intros sent. unfold sent. rewrite fetchWikiArticles_run.
  destruct (discovery net lat lon) as [e | pageIds].
  { split; [eexists; reflexivity |]. split; [discriminate | reflexivity]. }
  destruct pageIds as [| c rest].
  { split; [eexists; reflexivity |]. split; [| reflexivity].
    intros ids E Hne. injection E as <-. congruence. }
  simpl. destruct (hydration net (String c rest)) as [e | articles];
    (split; [eexists; reflexivity |]; split;
     [intros ids E _; injection E as <-; reflexivity
     | intros Hall; specialize (Hall _ eq_refl); discriminate]).
Qed.

(** A discovery response with a single item that has no [pageid] (absent or
    [null]) is handled like a response without items: the joined ids are
    empty, the list is emptied and no hydration request is issued. *)
Theorem item_without_pageid_counts_as_none
    (lat lon : number) (s : State) (r : Response) (data query item : value) :
  net (plainGet (geosearchUrl lat lon)) = Resolved r ->
  body r = Some data ->
  getProp data "query" = inr query ->
  getProp query "geosearch" = inr (VArr [item]) ->
  getProp item "pageid" = inr VUndefined \/ getProp item "pageid" = inr VNull ->
  fetchWikiArticles net lat lon s
  = (inr tt, withWikiArticles [] s, [EvFetch (plainGet (geosearchUrl lat lon))]).
Proof.
  intros Hnet Hbody Hquery Hgeo Hid.
  rewrite fetchWikiArticles_run. unfold discovery, settle, pageIdsOf.
  rewrite Hnet, Hbody. simpl. rewrite Hquery. simpl. rewrite Hgeo. simpl.
  destruct Hid as [-> | ->]; reflexivity.
Qed.

Lemma mapR_Forall2 {A B : Type} (f : A -> Result B) (l : list A) (ys : list B) :
  mapR f l = inr ys -> Forall2 (fun x y => f x = inr y) l ys.
Proof.
  revert ys. induction l as [| x l IH]; intros ys E; simpl in E.
  - injection E as <-. constructor.
  - destruct (f x) as [e | b] eqn:Ex; simpl in E; [discriminate |].
    destruct (mapR f l) as [e | bs]; simpl in E; [discriminate |].
    injection E as <-. constructor; [exact Ex | apply IH; reflexivity].
Qed.

(** The final list follows the order of the hydration response: it is the
    list of the articles built from the pages, page by page in the order
    [Object.values] lists them, with those that fail the filter left out;
    discovery order plays no part, and the list is never longer than the
    response. *)
Theorem final_list_in_response_order
    (lat lon : number) (s : State) (pageIds : string)
    (articleData query pagesObject : value) (pages : list value) :
  discovery net lat lon = inr pageIds ->
  pageIds <> "" ->
  settle (net (plainGet (articlesUrl pageIds))) = inr articleData ->
  getProp articleData "query" = inr query ->
  getProp query "pages" = inr pagesObject ->
  Object_values pagesObject = inr pages ->
  (forall page, In page pages -> exists a, toArticle page = inr a) ->
  exists articles,
    Forall2 (fun page a => toArticle page = inr a) pages articles
    /\ wikiArticles (finalState (fetchWikiArticles net lat lon s))
       = filter hasCoordinates articles
    /\ (List.length (wikiArticles (finalState (fetchWikiArticles net lat lon s)))
        <= List.length pages)%nat.
Proof.
  intros Hd Hne Hsettle Hquery Hpages Hvalues Hall.
  assert (Hmap : exists articles, mapR toArticle pages = inr articles).
  { clear Hvalues. induction pages as [| page rest IH].
    - exists []. reflexivity.
    - destruct (Hall page (or_introl eq_refl)) as [a Ha].
      destruct IH as [articles Hrest]; [intros p Hp; apply Hall; right; exact Hp |].
      exists (a :: articles). simpl. rewrite Ha. simpl. rewrite Hrest. reflexivity. }
  destruct Hmap as [articles Hmap]. exists articles.
  pose proof (mapR_Forall2 toArticle pages articles Hmap) as Hpair.
  assert (Hfinal : wikiArticles (finalState (fetchWikiArticles net lat lon s))
                   = filter hasCoordinates articles).
  { rewrite fetchWikiArticles_run, Hd.
    destruct pageIds as [| c rest]; [congruence |]. simpl.
    unfold hydration, articlesOf. rewrite Hsettle. simpl.
    rewrite Hquery. simpl. rewrite Hpages. simpl. rewrite Hvalues. simpl.
    rewrite Hmap. reflexivity. }
  split; [exact Hpair |]. split; [exact Hfinal |].
  rewrite Hfinal. apply Forall2_length in Hpair. rewrite Hpair.
  clear. induction articles as [| a rest IH]; simpl; [lia |].
  destruct (hasCoordinates a); simpl; lia.
Qed.

End Fetch.

(** ** The place search *)

Section Search.
Context `{Runtime}.
Variable net : Network.

(** A position is accepted by [L.LatLng] when neither coordinate is
    [NaN]. *)
Lemma invalidLatLng_false (y x : number) :
  number_isNaN y = false -> number_isNaN x = false -> invalidLatLng (y, x) = false.
Proof.
  intros Hy Hx. unfold invalidLatLng. simpl. rewrite Hy, Hx. reflexivity.
Qed.

(** With the map mounted and a first result whose [lat] and [lon] convert
    to text that parses to numbers, selecting it recentres the map and then
    runs the fetch. *)
Lemma handleResultSelect_run (result latValue lonValue : value)
    (latText lonText : string) (s : State) (m : LeafletMap) :
  mapRef s = Some m ->
  getProp result "lat" = inr latValue ->
  toString latValue = inr latText ->
  getProp result "lon" = inr lonValue ->
  toString lonValue = inr lonText ->
  invalidLatLng (parseFloat latText, parseFloat lonText) = false ->
  handleResultSelect net result s
  = fetchWikiArticles net (parseFloat latText) (parseFloat lonText)
      (withMap (Some (setView (parseFloat latText, parseFloat lonText) 13 m))
               (tileLayerRef s) s).
Proof.
  intros Hmap Hlat HlatText Hlon HlonText Hvalid.
  unfold handleResultSelect, mapSetView, bind, getState, lift, modify.
  rewrite Hmap, Hlat, HlatText, Hlon, HlonText, Hmap, Hvalid.
  destruct (fetchWikiArticles net _ _ _) as [[r s2] t2]. reflexivity.
Qed.

(** With the map mounted and a first result whose [lat] or [lon] does not
    parse to a number, [setView] throws: the map is not moved and the fetch
    is not started. *)
Lemma handleResultSelect_throws (result latValue lonValue : value)
    (latText lonText : string) (s : State) (m : LeafletMap) :
  mapRef s = Some m ->
  getProp result "lat" = inr latValue ->
  toString latValue = inr latText ->
  getProp result "lon" = inr lonValue ->
  toString lonValue = inr lonText ->
  invalidLatLng (parseFloat latText, parseFloat lonText) = true ->
  handleResultSelect net result s
  = (inl (latLngError (parseFloat latText, parseFloat lonText)), s, []).
Proof.
  intros Hmap Hlat HlatText Hlon HlonText Hinvalid.
  unfold handleResultSelect, mapSetView, bind, getState, lift, throw.
  rewrite Hmap, Hlat, HlatText, Hlon, HlonText, Hmap, Hinvalid. reflexivity.
Qed.


(** A first result whose [lat] or [lon] string does not parse to a number
    has no coordinate to go to: [setView] throws inside the [try], the
    search logs the exception, and the view and the article list stay as
    they were; no geosearch request is issued. *)
Lemma search_result_without_coordinate
    (s : State) (m : LeafletMap) (r : Response)
    (first : value) (others : list value) (latText lonText : string) :
  mapRef s = Some m ->
  (2 < String.length (searchQuery s))%nat ->
  net (plainGet (searchUrl (searchQuery s))) = Resolved r ->
  ok r = true ->
  body r = Some (VArr (first :: others)) ->
  getProp first "lat" = inr (VStr latText) ->
  getProp first "lon" = inr (VStr lonText) ->
  invalidLatLng (parseFloat latText, parseFloat lonText) = true ->
  handleSearch net s
  = (inr tt, s,
     [EvFetch (plainGet (searchUrl (searchQuery s)));
      EvConsoleError "Error fetching search results:"
        [ArgError (latLngError (parseFloat latText, parseFloat lonText))]]).
Proof.
  intros Hmap Hlen Hnet Hok Hbody Hlat Hlon Hinvalid.
  unfold handleSearch. unfold bind at 1. unfold getState.
  apply Nat.ltb_lt in Hlen. rewrite Hlen.
  unfold tryCatch, bind, fetch, json, lift, ret, throw, emit.
  rewrite Hnet, Hok, Hbody. simpl.
  rewrite (handleResultSelect_throws first (VStr latText) (VStr lonText)
             latText lonText s m Hmap Hlat eq_refl Hlon eq_refl Hinvalid).
  reflexivity.
Qed.

(** C7.  A search submitted with a query of at most two characters does
    nothing at all, in the component and in its search-only variant: the
    handler returns with the state it was given and without any effect, so
    no request leaves. *)
Theorem short_query_is_ignored
    (query : string) (s : State) (s' : SearchOnly.State) :
  searchQuery s = query ->
  SearchOnly.searchQuery s' = query ->
  (String.length query <= 2)%nat ->
  handleSearch net s = (inr tt, s, [])
  /\ SearchOnly.handleSearch net s' = (inr tt, s', []).
Proof.
  intros Hq Hq' Hlen.
  assert (Hshort : (2 <? String.length query)%nat = false) by (apply Nat.ltb_ge; exact Hlen).
  split.
  - unfold handleSearch, bind, getState. rewrite Hq, Hshort. reflexivity.
  - unfold SearchOnly.handleSearch, bind, getState. rewrite Hq', Hshort. reflexivity.
Qed.

End Search.

(** ** The geocode proxy *)

Section Proxy.
Context `{Runtime}.
Variable net : Network.

Lemma missing_true (query : option string) :
  missing query = true <-> query = None \/ query = Some "".
Proof.
  destruct query as [q |]; simpl.
  - rewrite String.eqb_eq. split.
    + intros ->. right. reflexivity.
    + intros [E | E]; [discriminate | congruence].
  - split; [left; reflexivity | reflexivity].
Qed.

(** What the handler does once [q] is there: one upstream request, then a
    response decided by how that request settles. *)
Lemma GET_forwarded (params : list (string * string)) (q : string) :
  searchParams_get "q" params = Some q ->
  q <> "" ->
  GET net params tt =
  match net (nominatimRequest q) with
  | Rejected reason =>
      (inr {| code := 500; payload := errorBody "Failed to fetch search results" |}, tt,
       [EvFetch (nominatimRequest q);
        EvConsoleError "Error fetching search results:" [ArgError (NetworkError reason)]])
  | Resolved r =>
      if ok r then
        match body r with
        | Some data =>
            (inr {| code := 200; payload := data |}, tt, [EvFetch (nominatimRequest q)])
        | None =>
            (inr {| code := 500; payload := errorBody "Failed to fetch search results" |}, tt,
             [EvFetch (nominatimRequest q);
              EvConsoleError "Error fetching search results:" [ArgError SyntaxError]])
        end
      else
        (inr {| code := 500; payload := errorBody "Failed to fetch search results" |}, tt,
         [EvFetch (nominatimRequest q);
          EvConsoleError "Error fetching search results:"
            [ArgError (Error "Failed to fetch search results")]])
  end.
Proof.
  intros Hq Hne. unfold GET. rewrite Hq.
  assert (Hm : missing (Some q) = false).
  { simpl. apply String.eqb_neq. exact Hne. }
  rewrite Hm. unfold tryCatch, bind, fetch, json, emit, ret, throw.
  destruct (net (nominatimRequest q)) as [reason | r]; [reflexivity |].
  destruct (ok r); simpl; [| reflexivity].
  destruct (body r); reflexivity.
Qed.

(** C4.  The handler answers 400 with an error body, without calling
    upstream, when [q] is absent or empty, and only then.  With a
    non-empty [q] it sends the query to the geocoder; an upstream answer
    with a success status is passed on unchanged with status 200; when the
    upstream request rejects or answers outside 2xx the response is 500
    with one fixed error body, the same for every cause. *)
Theorem GET_contract (params : list (string * string)) :
  let run := GET net params tt in
  let query := searchParams_get "q" params in
  (query = None \/ query = Some "" ->
     run = (inr {| code := 400; payload := errorBody "Query parameter is required" |},
            tt, []))
  /\ (forall response, outcome run = inr response ->
        code response = 400%Z -> query = None \/ query = Some "")
  /\ (forall q, query = Some q -> q <> "" ->
        (exists rest, effects run = EvFetch (nominatimRequest q) :: rest)
        /\ (forall r data,
              net (nominatimRequest q) = Resolved r -> ok r = true -> body r = Some data ->
              outcome run = inr {| code := 200; payload := data |})
        /\ ((exists reason, net (nominatimRequest q) = Rejected reason)
            \/ (exists r, net (nominatimRequest q) = Resolved r /\ ok r = false) ->
            outcome run
            = inr {| code := 500; payload := errorBody "Failed to fetch search results" |})).
Proof.
  intros run query. split; [| split].
  - intros Hq. apply missing_true in Hq. unfold run, GET. fold query.
    rewrite Hq. reflexivity.
  - intros response Hout Hcode.
    destruct query as [q |] eqn:Eq; [| left; reflexivity].
    destruct (String.eqb_spec q "") as [-> | Hne]; [right; reflexivity |].
    exfalso. unfold run in Hout. rewrite (GET_forwarded params q Eq Hne) in Hout.
    destruct (net (nominatimRequest q)) as [reason | r].
    + injection Hout as <-. discriminate Hcode.
    + destruct (ok r); [destruct (body r) |];
        injection Hout as <-; discriminate Hcode.
  - intros q Eq Hne. unfold run. rewrite (GET_forwarded params q Eq Hne).
    split; [| split].
    + destruct (net (nominatimRequest q)) as [reason | r]; [eexists; reflexivity |].
      destruct (ok r); [destruct (body r) |]; eexists; reflexivity.
    + intros r data Hnet Hok Hbody. rewrite Hnet, Hok, Hbody. reflexivity.
    + intros [[reason Hnet] | (r & Hnet & Hok)]; rewrite Hnet; [reflexivity |].
      rewrite Hok. reflexivity.
Qed.

End Proxy.

(** ** The initial viewport *)

Section Mount.
Context `{Runtime}.

(** C10.  Right after the mount effect, before any position, search or
    move, the map is centred at (51.505, -0.09) with zoom 13, the standard
    tile layer is the one mounted and the one selected; the search-only
    variant starts the same way. *)
Theorem initial_viewport :
  let s := finalState (mountEffect true initialState) in
  let s' := finalState (SearchOnly.mountEffect true SearchOnly.initialState) in
  mapRef s = Some {| center := (literal "51.505", literal "-0.09");
                     zoom := 13;
                     tileLayers := [mapLayers standard];
                     markers := [] |}
  /\ currentLayer s = standard
  /\ tileLayerRef s = Some (mapLayers standard)
  /\ SearchOnly.mapRef s'
     = Some {| SearchOnly.center := (literal "51.505", literal "-0.09");
               SearchOnly.zoom := 13;
               SearchOnly.tileLayers := [mapLayers standard];
               SearchOnly.markers := [] |}
  /\ SearchOnly.currentLayer s' = standard
  /\ SearchOnly.tileLayerRef s' = Some (mapLayers standard).
Proof.
  repeat split.
Qed.

End Mount.

(** ** Further properties of the handlers *)

Section Handlers.
Context `{Runtime}.
Variable net : Network.

Lemma tryCatch_completes {S A : Type} (m : Eff S A) (handler : exn -> Eff S A) (s : S) :
  (forall e s1, exists a, outcome (handler e s1) = inr a) ->
  exists a, outcome (tryCatch m handler s) = inr a.
Proof.
  intros Hh. unfold tryCatch, outcome.
  destruct (m s) as [[[e | a] s1] t1]; simpl.
  - destruct (Hh e s1) as [a Ha]. unfold outcome in Ha.
    destruct (handler e s1) as [[r s2] t2]. simpl in *. exists a. exact Ha.
  - exists a. reflexivity.
Qed.

(** No handler lets an exception escape: the search, the fetch and the
    proxy all complete normally whatever the network does. *)
Theorem handlers_never_throw
    (s : State) (lat lon : number) (params : list (string * string)) :
  outcome (handleSearch net s) = inr tt
  /\ outcome (fetchWikiArticles net lat lon s) = inr tt
  /\ exists response, outcome (GET net params tt) = inr response.
Proof.
  split; [| split].
  - unfold handleSearch. unfold bind at 1. unfold getState.
    destruct (2 <? String.length (searchQuery s))%nat; [| reflexivity].
    match goal with
    | |- outcome (match ?run with _ => _ end) = _ =>
        assert (Hc : exists a, outcome run = inr a)
    end.
    { apply tryCatch_completes. intros e s1. exists tt. reflexivity. }
    destruct Hc as [[] Hc]. unfold outcome in *.
    match goal with
    | |- fst (fst (match ?run with _ => _ end)) = _ =>
        destruct run as [[r s2] t2]
    end.
    simpl in *. exact Hc.
  - destruct (fetchWikiArticles_frame net lat lon s) as (articles & rest & E & _).
    exact E.
  - unfold GET. destruct (missing (searchParams_get "q" params)).
    + eexists. reflexivity.
    + apply tryCatch_completes. intros e s1. eexists. reflexivity.
Qed.

(** A search that fails, or that finds nothing, leaves the component as it
    was: the view is retained. *)
Theorem failed_search_retains_view (s : State) :
  (exists reason, net (plainGet (searchUrl (searchQuery s))) = Rejected reason)
  \/ (exists r, net (plainGet (searchUrl (searchQuery s))) = Resolved r /\ ok r = false)
  \/ (exists r, net (plainGet (searchUrl (searchQuery s))) = Resolved r
                /\ body r = None)
  \/ (exists r, net (plainGet (searchUrl (searchQuery s))) = Resolved r
                /\ ok r = true /\ body r = Some (VArr [])) ->
  finalState (handleSearch net s) = s.
Proof.
  intros Hcases. unfold handleSearch. unfold bind at 1. unfold getState.
  destruct (2 <? String.length (searchQuery s))%nat; [| reflexivity].
  unfold tryCatch, bind, fetch, json, lift, emit, ret, throw.
  destruct Hcases as [[reason E] | [(r & E & Hok) | [(r & E & Hb) | (r & E & Hok & Hb)]]];
    rewrite E; try reflexivity.
  - rewrite Hok. reflexivity.
  - rewrite Hb. destruct (ok r); reflexivity.
  - rewrite Hok, Hb. reflexivity.
Qed.

(** *** The marker effect and the popups *)

(** One article of the marker pass whose popup builds. *)
Lemma placeMarker_builds (a : WikiArticle) (s : State) (m : LeafletMap) :
  mapRef s = Some m ->
  popupBuilds a = true ->
  exists t,
    placeMarker a s
    = (inr tt,
       withMap (Some (setMarkers (markers m ++ markerOf a)%list m)) (tileLayerRef s) s,
       t).
Proof.
  intros Hmap Hb. unfold popupBuilds, markerOf in Hb. unfold placeMarker, markerOf.
  destruct (lat a), (lon a);
    try (eexists; unfold emit; rewrite app_nil_r;
         destruct s as [q l c w i u mr t]; simpl in *; subst mr;
         destruct m; reflexivity).
  destruct (createPopupContent a) as [e | content] eqn:Ec; [discriminate |].
  eexists. unfold bind, addMarker, modify, lift, emit. rewrite Hmap. reflexivity.
Qed.

(** One article of the marker pass whose popup does not build: the marker
    is on the map and the exception leaves. *)
Lemma placeMarker_throws (a : WikiArticle) (s : State) (m : LeafletMap) :
  mapRef s = Some m ->
  popupBuilds a = false ->
  exists e t,
    createPopupContent a = inl e
    /\ placeMarker a s
       = (inl e,
          withMap (Some (setMarkers (markers m ++ markerOf a)%list m)) (tileLayerRef s) s,
          t).
Proof.
  intros Hmap Hb. unfold popupBuilds, markerOf in Hb. unfold placeMarker, markerOf.
  destruct (lat a), (lon a); try discriminate.
  destruct (createPopupContent a) as [e | content] eqn:Ec; [| discriminate].
  exists e. eexists. split; [reflexivity |].
  unfold bind, addMarker, modify, lift, emit. rewrite Hmap. reflexivity.
Qed.

(** The pass over articles whose popups all build. *)
Lemma forEach_placeMarker (articles : list WikiArticle) (s : State) (m : LeafletMap) :
  mapRef s = Some m ->
  Forall (fun a => popupBuilds a = true) articles ->
  exists t,
    forEach placeMarker articles s
    = (inr tt,
       withMap (Some (setMarkers (markers m ++ flat_map markerOf articles)%list m))
               (tileLayerRef s) s,
       t).
Proof.
  revert s m. induction articles as [| a rest IH]; intros s m Hmap Hall.
  - exists []. simpl. rewrite app_nil_r. unfold ret.
    destruct s as [q l c w i u mr t]. simpl in *. subst mr.
    destruct m. reflexivity.
  - inversion Hall as [| ? ? Ha Hrest]; subst.
    change (forEach placeMarker (a :: rest)) with (placeMarker a ;; forEach placeMarker rest).
    unfold bind.
    destruct (placeMarker_builds a s m Hmap Ha) as [t1 ->].
    destruct (IH (withMap (Some (setMarkers (markers m ++ markerOf a)%list m))
                          (tileLayerRef s) s)
                 (setMarkers (markers m ++ markerOf a)%list m) eq_refl Hrest) as [t2 ->].
    eexists. simpl. rewrite <- app_assoc. reflexivity.
Qed.

(** The pass stops at the first article whose popup does not build. *)
Lemma forEach_placeMarker_stops (before after : list WikiArticle) (a : WikiArticle)
    (s : State) (m : LeafletMap) :
  mapRef s = Some m ->
  Forall (fun b => popupBuilds b = true) before ->
  popupBuilds a = false ->
  exists e t,
    createPopupContent a = inl e
    /\ forEach placeMarker (before ++ a :: after) s
       = (inl e,
          withMap (Some (setMarkers
                           (markers m ++ flat_map markerOf (before ++ [a]))%list m))
                  (tileLayerRef s) s,
          t).
Proof.
  revert s m. induction before as [| b rest IH]; intros s m Hmap Hall Ha.
  - destruct (placeMarker_throws a s m Hmap Ha) as (e & t & Ec & Hrun).
    exists e, t. split; [exact Ec |].
    change (forEach placeMarker ([] ++ a :: after))
      with (placeMarker a ;; forEach placeMarker after).
    unfold bind. rewrite Hrun. simpl. rewrite app_nil_r. reflexivity.
  - inversion Hall as [| ? ? Hb Hrest]; subst.
    change (forEach placeMarker ((b :: rest) ++ a :: after))
      with (placeMarker b ;; forEach placeMarker (rest ++ a :: after)).
    unfold bind.
    destruct (placeMarker_builds b s m Hmap Hb) as [t1 ->].
    destruct (IH (withMap (Some (setMarkers (markers m ++ markerOf b)%list m))
                          (tileLayerRef s) s)
                 (setMarkers (markers m ++ markerOf b)%list m) eq_refl Hrest Ha)
      as (e & t2 & Ec & ->).
    exists e. eexists. split; [exact Ec |]. simpl. rewrite <- app_assoc. reflexivity.
Qed.

(** When the popup of every article that gets a marker can be built, the
    marker effect completes, and afterwards the layer group holds exactly
    one marker per article whose [lat] and [lon] are numbers, in list order,
    and nothing of what it held before; the viewport is untouched. *)
Theorem markers_follow_articles (s : State) (m : LeafletMap) :
  mapRef s = Some m ->
  Forall (fun a => popupBuilds a = true) (wikiArticles s) ->
  outcome (markersEffect s) = inr tt
  /\ exists m' : LeafletMap,
       mapRef (finalState (markersEffect s)) = Some m'
       /\ markers m' = flat_map markerOf (wikiArticles s)
       /\ center m' = center m
       /\ zoom m' = zoom m
       /\ tileLayers m' = tileLayers m.
Proof.
  intros Hmap Hall.
  assert (Hrun : exists t,
    markersEffect s
    = (inr tt,
       withMap (Some (setMarkers (flat_map markerOf (wikiArticles s)) m)) (tileLayerRef s) s,
       t)).
  { unfold markersEffect. unfold bind at 1. unfold getState.
    rewrite Hmap. unfold bind, emit, clearLayers, modify. rewrite Hmap.
    destruct (forEach_placeMarker (wikiArticles s)
                (withMap (Some (setMarkers [] m)) (tileLayerRef s) s)
                (setMarkers [] m) eq_refl Hall) as [t ->].
    eexists. reflexivity. }
  destruct Hrun as [t Hrun]. rewrite Hrun.
  split; [reflexivity |]. eexists. split; [reflexivity |]. repeat split.
Qed.

Lemma append_assoc (a b c : string) : ((a ++ b) ++ c = a ++ (b ++ c))%string.
Proof. induction a as [| ch a IH]; simpl; [reflexivity | rewrite IH; reflexivity]. Qed.

(** Characters of a prefix cut by [substring]. *)
Lemma substring_prefix (n : nat) (text : string) :
  String.prefix (substring 0 n text) text = true
  /\ (String.length (substring 0 n text) <= n)%nat
  /\ ((String.length text <= n)%nat -> substring 0 n text = text).
Proof.
  revert text. induction n as [| n IH]; intros text.
  - destruct text; simpl; repeat split; lia.
  - destruct text as [| c rest]; simpl.
    + repeat split; lia.
    + destruct (IH rest) as (Hp & Hl & He).
      rewrite Hp. destruct (Ascii.ascii_dec c c) as [_ | Hne]; [| congruence].
      repeat split; try lia.
      intros Hlen. f_equal. apply He. lia.
Qed.

(** The popup of an article whose title, extract and link are strings: the
    title and the link are inserted as they are, and the summary is the
    extract cut after its first 100 characters, a shorter extract whole,
    followed by three dots. *)
Theorem popup_shows_truncated_extract
    (a : WikiArticle) (heading text link image : string) :
  title a = VStr heading ->
  extract a = VStr text ->
  fullurl a = VStr link ->
  popupImage a = inr image ->
  exists (content : PopupContent) (summary before middle after : string),
    createPopupContent a = inr content
    /\ className content = "wiki-popup"
    /\ innerHTML content
       = before ++ heading ++ "</h3>" ++ middle ++ summary ++ "...</p>" ++ after
    /\ String.prefix summary text = true
    /\ (String.length summary <= 100)%nat
    /\ ((String.length text <= 100)%nat -> summary = text)
    /\ exists tail, after = newline ++ "      <a href=" ++ dquote ++ link ++ tail.
Proof.
  intros Ht Hx Hu Hi. unfold createPopupContent.
  rewrite Ht, Hx, Hu, Hi. simpl.
  destruct (substring_prefix 100 text) as (Hp & Hl & He).
  eexists. exists (substring 0 100 text).
  exists (newline ++ "      <h3 class=" ++ dquote ++ "text-lg font-semibold" ++ dquote ++ ">").
  exists (newline ++ "      " ++ image ++ newline
          ++ "      <p class=" ++ dquote ++ "text-sm mb-2" ++ dquote ++ ">").
  eexists.
  split; [reflexivity |]. split; [reflexivity |]. split.
  - cbn [innerHTML]. rewrite !append_assoc. reflexivity.
  - split; [exact Hp |]. split; [exact Hl |]. split; [exact He |].
    eexists. reflexivity.
Qed.

(** Without an extract that is a string or an array there is no popup:
    [article.extract.slice] is not there to call. *)
Lemma popup_needs_extract (a : WikiArticle) :
  (forall text, extract a <> VStr text) ->
  (forall items, extract a <> VArr items) ->
  exists e, createPopupContent a = inl e.
Proof.
  intros Hs Ha. unfold createPopupContent.
  destruct (toString (title a)) as [e | heading]; [exists e; reflexivity |].
  destruct (popupImage a) as [e | image]; [exists e; reflexivity |].
  destruct (extract a) as [| | b | n | text | items | props];
    try (exists TypeError; reflexivity).
  - exfalso. apply (Hs text). reflexivity.
  - exfalso. apply (Ha items). reflexivity.
Qed.

(** An article whose popup cannot be built stops the marker effect. *)
Lemma markersEffect_stops
    (s : State) (m : LeafletMap) (before after : list WikiArticle) (a : WikiArticle) :
  mapRef s = Some m ->
  wikiArticles s = (before ++ a :: after)%list ->
  Forall (fun b => popupBuilds b = true) before ->
  popupBuilds a = false ->
  exists e,
    createPopupContent a = inl e
    /\ outcome (markersEffect s) = inl e
    /\ exists m' : LeafletMap,
         mapRef (finalState (markersEffect s)) = Some m'
         /\ markers m' = flat_map markerOf (before ++ [a]).
Proof.
  intros Hmap Hlist Hall Ha.
  assert (Hrun : exists e t,
    createPopupContent a = inl e
    /\ markersEffect s
       = (inl e,
          withMap (Some (setMarkers (flat_map markerOf (before ++ [a])) m))
                  (tileLayerRef s) s,
          t)).
  { unfold markersEffect. unfold bind at 1. unfold getState.
    rewrite Hmap. unfold bind, emit, clearLayers, modify. rewrite Hmap, Hlist.
    destruct (forEach_placeMarker_stops before after a
                (withMap (Some (setMarkers [] m)) (tileLayerRef s) s)
                (setMarkers [] m) eq_refl Hall Ha) as (e & t & Ec & ->).
    exists e. eexists. split; [exact Ec | reflexivity]. }
  destruct Hrun as (e & t & Ec & Hrun). rewrite Hrun.
  exists e. split; [exact Ec |]. split; [reflexivity |].
  eexists. split; reflexivity.
Qed.

(** An article with numeric coordinates and without an extract (the
    property is absent, or is neither a string nor an array) stops the
    marker effect: [article.extract.slice] throws while its popup is built,
    the exception escapes the effect, the article's own marker is already on
    the map, and the articles after it get no marker. *)
Theorem marker_pass_stops_without_extract
    (s : State) (m : LeafletMap) (before after : list WikiArticle) (a : WikiArticle)
    (y x : number) :
  mapRef s = Some m ->
  wikiArticles s = (before ++ a :: after)%list ->
  Forall (fun b => popupBuilds b = true) before ->
  lat a = VNum y ->
  lon a = VNum x ->
  (forall text, extract a <> VStr text) ->
  (forall items, extract a <> VArr items) ->
  exists e,
    outcome (markersEffect s) = inl e
    /\ exists m' : LeafletMap,
         mapRef (finalState (markersEffect s)) = Some m'
         /\ markers m'
            = (flat_map markerOf before ++ [ {| position := (y, x); popup := a |} ])%list.
Proof.
  intros Hmap Hlist Hall Hlat Hlon Hs Ha.
  assert (Hfails : popupBuilds a = false).
  { unfold popupBuilds, markerOf. rewrite Hlat, Hlon.
    destruct (popup_needs_extract a Hs Ha) as [e ->]. reflexivity. }
  destruct (markersEffect_stops s m before after a Hmap Hlist Hall Hfails)
    as (e & _ & Hout & m' & Hm' & Hmarkers).
  exists e. split; [exact Hout |]. exists m'. split; [exact Hm' |].
  rewrite Hmarkers, flat_map_app. simpl. unfold markerOf at 2.
  rewrite Hlat, Hlon. reflexivity.
Qed.

(** Changing the layer swaps the one mounted tile layer for the chosen one
    and leaves the viewport alone. *)
Theorem changeMapLayer_swaps_tile_layer
    (layer : Layer) (s : State) (m : LeafletMap) (old : string) :
  mapRef s = Some m ->
  tileLayerRef s = Some old ->
  tileLayers m = [old] ->
  exists m' : LeafletMap,
    mapRef (finalState (changeMapLayer layer s)) = Some m'
    /\ tileLayers m' = [mapLayers layer]
    /\ tileLayerRef (finalState (changeMapLayer layer s)) = Some (mapLayers layer)
    /\ currentLayer (finalState (changeMapLayer layer s)) = layer
    /\ center m' = center m
    /\ zoom m' = zoom m.
Proof.
  intros Hmap Href Htiles.
  unfold changeMapLayer, bind, modify, getState, finalState. simpl.
  rewrite Hmap, Href. simpl. eexists. split; [reflexivity |].
  unfold addTileLayer, removeTileLayer. simpl. rewrite Htiles. simpl.
  rewrite String.eqb_refl. simpl. repeat split.
Qed.



(** The [moveend] that ends a [setView] asks for the articles around the
    new centre: this is how "Center on Me" and a search refresh the list a
    second time, after their own work is done. *)
Lemma moveend_after_setView (c : number * number) (z : Z) (s : State) (m : LeafletMap) :
  mapRef s = Some m ->
  invalidLatLng c = false ->
  exists rest,
    effects (onMoveEnd net (finalState (mapSetView c z s)))
    = EvFetch (plainGet (geosearchUrl (fst c) (snd c))) :: rest.
Proof.
  intros Hmap Hvalid.
  unfold mapSetView, bind, getState, modify, finalState. rewrite Hmap, Hvalid. simpl.
  unfold onMoveEnd, bind, getState. simpl.
  match goal with
  | |- context [fetchWikiArticles net ?a ?b ?s1] =>
      destruct (fetchWikiArticles_frame net a b s1) as (articles & rest & _ & _ & Hev);
      unfold effects in *;
      destruct (fetchWikiArticles net a b s1) as [[r2 s2] t2]
  end.
  simpl in *. exists rest. exact Hev.
Qed.


End Handlers.

(** ** The shape of a search *)

Section SearchShape.
Context `{Runtime}.
Variable net : Network.

Lemma search_on_endpoint (q : string) :
  componentEndpoint (plainGet (searchUrl q)) = true.
Proof.
  unfold componentEndpoint, searchUrl. simpl.
  destruct (encodeURIComponent q); reflexivity.
Qed.

(** Selecting a result throws before anything happened, or does nothing for
    want of a map, or recentres the map and runs the fetch. *)
Lemma handleResultSelect_shape (result : value) (s : State) :
  (exists e, handleResultSelect net result s = (inl e, s, []))
  \/ (mapRef s = None /\ handleResultSelect net result s = (inr tt, s, []))
  \/ (exists m c articles rest,
        mapRef s = Some m
        /\ handleResultSelect net result s
           = (inr tt,
              withWikiArticles articles
                (withMap (Some (setView c 13 m)) (tileLayerRef s) s),
              EvFetch (plainGet (geosearchUrl (fst c) (snd c))) :: rest)
        /\ Forall (fun a => hasCoordinates a = true) articles
        /\ Forall (fun req => componentEndpoint req = true)
             (requestsOf (EvFetch (plainGet (geosearchUrl (fst c) (snd c))) :: rest))).
Proof.
  destruct (mapRef s) as [m |] eqn:Hmap.
  2: { right. left. split; [reflexivity |].
       unfold handleResultSelect, bind, getState. rewrite Hmap. reflexivity. }
  destruct (getProp result "lat") as [e | latValue] eqn:Hlat.
  { left. exists e. unfold handleResultSelect, bind, getState, lift.
    rewrite Hmap, Hlat. reflexivity. }
  destruct (toString latValue) as [e | latText] eqn:HlatText.
  { left. exists e. unfold handleResultSelect, bind, getState, lift.
    rewrite Hmap, Hlat, HlatText. reflexivity. }
  destruct (getProp result "lon") as [e | lonValue] eqn:Hlon.
  { left. exists e. unfold handleResultSelect, bind, getState, lift.
    rewrite Hmap, Hlat, HlatText, Hlon. reflexivity. }
  destruct (toString lonValue) as [e | lonText] eqn:HlonText.
  { left. exists e. unfold handleResultSelect, bind, getState, lift.
    rewrite Hmap, Hlat, HlatText, Hlon, HlonText. reflexivity. }
  destruct (invalidLatLng (parseFloat latText, parseFloat lonText)) eqn:Hvalid.
  { left. eexists.
    exact (handleResultSelect_throws net result latValue lonValue latText lonText s m
             Hmap Hlat HlatText Hlon HlonText Hvalid). }
  right. right.
  rewrite (handleResultSelect_run net result latValue lonValue latText lonText s m
             Hmap Hlat HlatText Hlon HlonText Hvalid).
  destruct (fetchWikiArticles_shape net (parseFloat latText) (parseFloat lonText)
              (withMap (Some (setView (parseFloat latText, parseFloat lonText) 13 m))
                       (tileLayerRef s) s))
    as (articles & rest & -> & Hall & Hreq).
  exists m, (parseFloat latText, parseFloat lonText), articles, rest.
  repeat split; assumption.
Qed.

(** A search never throws.  It leaves the component as it was, having sent
    nothing or the search request alone; or, on a mounted map, it recentres
    the map at zoom 13 and replaces the list by the outcome of a fetch. *)
Lemma handleSearch_shape (s : State) :
  exists t,
    Forall (fun req => componentEndpoint req = true) (requestsOf t)
    /\ ((handleSearch net s = (inr tt, s, t)
         /\ (requestsOf t = [] \/ requestsOf t = [plainGet (searchUrl (searchQuery s))]))
        \/ (exists m c articles,
              mapRef s = Some m
              /\ handleSearch net s
                 = (inr tt,
                    withWikiArticles articles
                      (withMap (Some (setView c 13 m)) (tileLayerRef s) s),
                    t)
              /\ Forall (fun a => hasCoordinates a = true) articles)).
Proof.
  assert (Hone : Forall (fun req => componentEndpoint req = true)
                   [plainGet (searchUrl (searchQuery s))]).
  { constructor; [apply search_on_endpoint | constructor]. }
  remember (handleSearch net s) as run eqn:Hrun.
  unfold handleSearch in Hrun. unfold bind at 1 in Hrun. unfold getState in Hrun.
  destruct (2 <? String.length (searchQuery s))%nat.
  2: { rewrite Hrun. exists []. split; [constructor |].
       left. split; [reflexivity | left; reflexivity]. }
  unfold tryCatch, bind, fetch, json, lift, emit, ret, throw in Hrun.
  destruct (net (plainGet (searchUrl (searchQuery s)))) as [reason | r].
  { rewrite Hrun. eexists. split; [| left; split; [reflexivity | right; reflexivity]].
    exact Hone. }
  destruct (ok r); simpl in Hrun.
  2: { rewrite Hrun. eexists. split; [| left; split; [reflexivity | right; reflexivity]].
       exact Hone. }
  destruct (body r) as [data |].
  2: { rewrite Hrun. eexists. split; [| left; split; [reflexivity | right; reflexivity]].
       exact Hone. }
  destruct (lengthGtZero data) as [e | nonEmpty].
  { rewrite Hrun. eexists. split; [| left; split; [reflexivity | right; reflexivity]].
    exact Hone. }
  destruct nonEmpty.
  2: { rewrite Hrun. eexists. split; [| left; split; [reflexivity | right; reflexivity]].
       exact Hone. }
  destruct (getFirst data) as [e | first].
  { rewrite Hrun. eexists. split; [| left; split; [reflexivity | right; reflexivity]].
    exact Hone. }
  destruct (handleResultSelect_shape first s)
    as [[e E] | [[Hmap E] | (m & c & articles & rest & Hmap & E & Hall & Hreq)]];
    rewrite E in Hrun; rewrite Hrun.
  - eexists. split; [| left; split; [reflexivity | right; reflexivity]]. exact Hone.
  - eexists. split; [| left; split; [reflexivity | right; reflexivity]]. exact Hone.
  - eexists. split.
    2: { right. exists m, c, articles. split; [exact Hmap |]. split; [reflexivity | exact Hall]. }
    simpl. constructor; [apply search_on_endpoint |]. exact Hreq.
Qed.

(** A search submitted while no map is mounted is dropped: whatever the
    geocoder answers, the component state is unchanged, nothing but the
    search request is sent, and no fetch around the result is started. *)
Theorem search_without_map_is_dropped (s : State) :
  mapRef s = None ->
  handleSearch net s
  = (inr tt, s, effects (handleSearch net s))
  /\ (requestsOf (effects (handleSearch net s)) = []
      \/ requestsOf (effects (handleSearch net s))
         = [plainGet (searchUrl (searchQuery s))]).
Proof.
  intros Hmap.
  destruct (handleSearch_shape s)
    as (t & _ & [[-> Hreq] | (m & c & articles & Hm & _)]).
  - split; [reflexivity | exact Hreq].
  - congruence.
Qed.

End SearchShape.

(** ** Sessions *)

Section SessionFacts.
Context `{Runtime}.

Lemma evolved_one (s1 s2 : State) : touched s1 s2 -> evolved s1 s2.
Proof. intros Ht. eapply evolved_step; [exact Ht | apply evolved_refl]. Qed.

Lemma evolved_trans (s1 s2 s3 : State) :
  evolved s1 s2 -> evolved s2 s3 -> evolved s1 s3.
Proof.
  intros H12 H23. induction H12 as [s | a b c Hab Hbc IH]; [exact H23 |].
  eapply evolved_step; [exact Hab | apply IH; exact H23].
Qed.

Lemma requestsOf_app (t1 t2 : list Event) :
  requestsOf (t1 ++ t2) = (requestsOf t1 ++ requestsOf t2)%list.
Proof. unfold requestsOf. apply flat_map_app. Qed.

(** [mapSetView] throws with the state as it was, or is an update of the
    viewport, or nothing without a map. *)
Lemma mapSetView_evolved (c : number * number) (z : Z) (s : State) :
  mapSetView c z s = (inl (latLngError c), s, [])
  \/ (mapSetView c z s = (inr tt, finalState (mapSetView c z s), [])
      /\ evolved s (finalState (mapSetView c z s))).
Proof.
  unfold mapSetView, bind, getState, modify, throw, ret, finalState.
  destruct (mapRef s) as [m |] eqn:Hmap.
  - destruct (invalidLatLng c); [left; reflexivity |].
    right. simpl. split; [reflexivity |].
    apply evolved_one. apply touched_view. exact Hmap.
  - right. simpl. split; [reflexivity | apply evolved_refl].
Qed.

(** A fetch is an update of the list. *)
Lemma fetchWikiArticles_evolved (net : Network) (lat lon : number) (s : State) :
  evolved s (finalState (fetchWikiArticles net lat lon s))
  /\ Forall (fun req => componentEndpoint req = true)
       (requestsOf (effects (fetchWikiArticles net lat lon s))).
Proof.
  destruct (fetchWikiArticles_shape net lat lon s) as (articles & rest & -> & Hall & Hreq).
  split; [| exact Hreq].
  apply evolved_one. apply touched_articles. exact Hall.
Qed.

(** The marker pass only ever changes the markers, and sends nothing. *)
Lemma forEach_placeMarker_evolved (articles : list WikiArticle) (s : State) :
  evolved s (finalState (forEach placeMarker articles s))
  /\ requestsOf (effects (forEach placeMarker articles s)) = [].
Proof.
  revert s. induction articles as [| a rest IH]; intros s.
  - split; [apply evolved_refl | reflexivity].
  - change (forEach placeMarker (a :: rest)) with (placeMarker a ;; forEach placeMarker rest).
    assert (Hone : evolved s (finalState (placeMarker a s))
                   /\ requestsOf (effects (placeMarker a s)) = []).
    { unfold placeMarker.
      destruct (lat a), (lon a);
        try (split; [apply evolved_refl | reflexivity]).
      unfold bind, addMarker, modify, lift, emit, finalState, effects.
      destruct (createPopupContent a) as [e | content]; simpl;
        (split; [| reflexivity]);
        (destruct (mapRef s) as [m |] eqn:Hmap;
         [apply evolved_one; apply touched_markers; exact Hmap | apply evolved_refl]). }
    destruct Hone as [Hstate Hsent].
    unfold bind, finalState, effects in *.
    destruct (placeMarker a s) as [[[e | []] s1] t1]; simpl in *.
    + split; assumption.
    + destruct (IH s1) as [Hrest Hnone].
      destruct (forEach placeMarker rest s1) as [[r2 s2] t2]; simpl in *.
      split; [eapply evolved_trans; eassumption |].
      rewrite requestsOf_app, Hsent, Hnone. reflexivity.
Qed.

Lemma markersEffect_evolved (s : State) :
  evolved s (finalState (markersEffect s))
  /\ requestsOf (effects (markersEffect s)) = [].
Proof.
  destruct (mapRef s) as [m |] eqn:Hmap.
  2: { unfold markersEffect, bind, getState. rewrite Hmap.
       split; [apply evolved_refl | reflexivity]. }
  assert (E : markersEffect s
              = match forEach placeMarker (wikiArticles s)
                        (withMap (Some (setMarkers [] m)) (tileLayerRef s) s) with
                | (r2, s2, t2) =>
                    (r2, s2,
                     EvConsoleLog "Updating markers:"
                       [ArgCount (List.length (wikiArticles s))] :: t2)
                end).
  { unfold markersEffect. unfold bind at 1. unfold getState.
    rewrite Hmap. unfold bind, emit, clearLayers, modify. rewrite Hmap.
    destruct (forEach placeMarker (wikiArticles s) _) as [[r2 s2] t2]. reflexivity. }
  rewrite E.
  destruct (forEach_placeMarker_evolved (wikiArticles s)
              (withMap (Some (setMarkers [] m)) (tileLayerRef s) s)) as [Hstate Hsent].
  unfold finalState, effects in *.
  destruct (forEach placeMarker (wikiArticles s) _) as [[r2 s2] t2]; simpl in *.
  split; [| exact Hsent].
  eapply evolved_step; [apply touched_markers; exact Hmap | exact Hstate].
Qed.

(** What one action can do: a change of layer when the controls are shown
    and a layer is chosen, a new user location followed by updates when a
    position arrives, and updates only in every other case; its requests
    stay on the two endpoints. *)
Lemma dispatch_shape (net : Network) (a : Action) (s : State) :
  Forall (fun req => componentEndpoint req = true)
    (requestsOf (effects (dispatch net a s)))
  /\ match a with
     | Locate latitude longitude =>
         evolved (withUserLocation (Some (latitude, longitude)) s)
                 (finalState (dispatch net a s))
     | SelectLayer (Some layer) =>
         finalState (dispatch net a s)
         = if showControls s then finalState (changeMapLayer layer s) else s
     | _ => evolved s (finalState (dispatch net a s))
     end.
Proof.
  destruct a as [latitude longitude | c z | q | | direction | pressed | choice | |];
    unfold dispatch.
  - unfold onPosition, bind, modify. unfold finalState at 1, effects at 1.
    destruct (mapSetView_evolved (latitude, longitude) 13
                (withUserLocation (Some (latitude, longitude)) s)) as [-> | [-> Hview]].
    { simpl. split; [constructor | apply evolved_refl]. }
    destruct (fetchWikiArticles_evolved net latitude longitude
                (finalState (mapSetView (latitude, longitude) 13
                               (withUserLocation (Some (latitude, longitude)) s))))
      as [Hfetch Hsent].
    unfold finalState, effects in *.
    destruct (fetchWikiArticles net latitude longitude _) as [[r2 s2] t2]; simpl in *.
    split; [exact Hsent | eapply evolved_trans; eassumption].
  - unfold bind. destruct (mapSetView_evolved c z s) as [-> | [-> Hview]].
    { split; [constructor | apply evolved_refl]. }
    unfold onMoveEnd, bind, getState.
    destruct (mapRef (finalState (mapSetView c z s))) as [m |].
    + destruct (fetchWikiArticles_evolved net (fst (center m)) (snd (center m))
                  (finalState (mapSetView c z s))) as [Hfetch Hsent].
      unfold finalState, effects in *.
      destruct (fetchWikiArticles net _ _ _) as [[r2 s2] t2]; simpl in *.
      split; [exact Hsent | eapply evolved_trans; eassumption].
    + split; [constructor | exact Hview].
  - split; [constructor | apply evolved_one; apply touched_query].
  - destruct (handleSearch_shape net s)
      as (t & Hsent & [[-> _] | (m & c & articles & Hmap & -> & Hall)]).
    + split; [exact Hsent | apply evolved_refl].
    + split; [exact Hsent |]. unfold finalState. simpl.
      eapply evolved_step; [apply (touched_view c 13 m s Hmap) |].
      apply evolved_one. apply touched_articles. exact Hall.
  - split; [constructor |]. unfold modify, finalState. simpl.
    unfold clickNavigate. destruct (navigationAvailable s); [| apply evolved_refl].
    destruct direction; apply evolved_one; apply touched_cursor.
  - split; [constructor | apply evolved_one; apply touched_controls].
  - unfold bind, getState, onValueChange.
    destruct choice as [layer |].
    + destruct (showControls s).
      * unfold finalState, effects.
        destruct (changeMapLayer layer s) as [[r2 s2] t2] eqn:E. simpl.
        split; [| reflexivity].
        unfold changeMapLayer, bind, modify, getState in E. simpl in E.
        destruct (mapRef s), (tileLayerRef s); injection E as <- <- <-; constructor.
      * split; [constructor | reflexivity].
    + destruct (showControls s); (split; [constructor | apply evolved_refl]).
  - unfold bind, getState. destruct (showControls s).
    + unfold centerOnUserLocation, bind, getState.
      destruct (mapRef s) as [m |]; [| split; [constructor | apply evolved_refl]].
      destruct (userLocation s) as [loc |]; [| split; [constructor | apply evolved_refl]].
      destruct (mapSetView_evolved loc 13 s) as [-> | [-> Hview]].
      * split; [constructor | apply evolved_refl].
      * split; [constructor | exact Hview].
    + split; [constructor | apply evolved_refl].
  - destruct (markersEffect_evolved s) as [Hstate Hsent].
    split; [rewrite Hsent; constructor | exact Hstate].
Qed.

(** What an update leaves alone. *)
Lemma touched_keeps (s s' : State) :
  touched s s' ->
  currentLayer s' = currentLayer s
  /\ tileLayerRef s' = tileLayerRef s
  /\ userLocation s' = userLocation s
  /\ (forall m, mapRef s = Some m ->
        exists m', mapRef s' = Some m' /\ tileLayers m' = tileLayers m)
  /\ (Forall (fun a => hasCoordinates a = true) (wikiArticles s) ->
      Forall (fun a => hasCoordinates a = true) (wikiArticles s')).
Proof.
  intros Ht.
  destruct Ht as [q s | shown s | i s | articles s Hall | c z m s Hmap | ms m s Hmap];
    simpl; repeat split; try (intros; assumption);
    try (intros m0 Hm0; exists m0; split; [exact Hm0 | reflexivity]).
  - intros m0 Hm0. rewrite Hmap in Hm0. injection Hm0 as <-.
    eexists. split; reflexivity.
  - intros m0 Hm0. rewrite Hmap in Hm0. injection Hm0 as <-.
    eexists. split; reflexivity.
Qed.

Lemma evolved_keeps (s s' : State) :
  evolved s s' ->
  currentLayer s' = currentLayer s
  /\ tileLayerRef s' = tileLayerRef s
  /\ userLocation s' = userLocation s
  /\ (forall m, mapRef s = Some m ->
        exists m', mapRef s' = Some m' /\ tileLayers m' = tileLayers m)
  /\ (Forall (fun a => hasCoordinates a = true) (wikiArticles s) ->
      Forall (fun a => hasCoordinates a = true) (wikiArticles s')).
Proof.
  intros He. induction He as [s | s1 s2 s3 Ht He IH].
  - repeat split; try (intros; assumption).
    intros m Hm. exists m. split; [exact Hm | reflexivity].
  - destruct (touched_keeps s1 s2 Ht) as (L1 & R1 & U1 & M1 & A1).
    destruct IH as (L2 & R2 & U2 & M2 & A2).
    repeat split; try congruence.
    + intros m Hm. destruct (M1 m Hm) as (m' & Hm' & Ht').
      destruct (M2 m' Hm') as (m'' & Hm'' & Ht'').
      exists m''. split; [exact Hm'' | congruence].
    + intros Hall. apply A2. apply A1. exact Hall.
Qed.

(** The state after a change of layer. *)
Lemma changeMapLayer_state (layer : Layer) (s : State) :
  finalState (changeMapLayer layer s)
  = match mapRef s, tileLayerRef s with
    | Some m, Some old =>
        withMap (Some (addTileLayer (mapLayers layer) (removeTileLayer old m)))
                (Some (mapLayers layer)) (withCurrentLayer layer s)
    | _, _ => withCurrentLayer layer s
    end.
Proof.
  unfold changeMapLayer, bind, modify, getState, finalState. simpl.
  destruct (mapRef s), (tileLayerRef s); reflexivity.
Qed.

Lemma oneTileLayer_evolved (s s' : State) :
  evolved s s' -> oneTileLayer s -> oneTileLayer s'.
Proof.
  intros He (m & Hm & Ht & Hr).
  destruct (evolved_keeps s s' He) as (L & R & _ & M & _).
  destruct (M m Hm) as (m' & Hm' & Ht').
  exists m'. rewrite L, R. repeat split; congruence.
Qed.

Lemma oneTileLayer_dispatch (net : Network) (a : Action) (s : State) :
  oneTileLayer s -> oneTileLayer (finalState (dispatch net a s)).
Proof.
  intros Hone. destruct (dispatch_shape net a s) as [_ Hshape].
  destruct a as [latitude longitude | c z | q | | direction | pressed | [layer |] | |];
    try (eapply oneTileLayer_evolved; [exact Hshape | exact Hone]).
  rewrite Hshape. destruct (showControls s); [| exact Hone].
  rewrite changeMapLayer_state.
  destruct Hone as (m & Hm & Ht & Hr). rewrite Hm, Hr.
  eexists. split; [reflexivity |]. split; [| reflexivity].
  unfold addTileLayer, removeTileLayer. simpl. rewrite Ht. simpl.
  rewrite String.eqb_refl. reflexivity.
Qed.

(** Exactly one tile layer is mounted at any time: once a map is mounted
    with the tile layer of the selected layer, no sequence of actions,
    under any networks, leaves the map with no tile layer, with two, or with
    one that is not the selected layer's, and [tileLayerRef] keeps pointing
    at it. *)
Theorem session_keeps_one_tile_layer (steps : list (Network * Action)) (s : State) :
  oneTileLayer s -> oneTileLayer (runSession steps s).
Proof.
  revert s. induction steps as [| [net a] rest IH]; intros s Hone; simpl.
  - exact Hone.
  - apply IH. apply oneTileLayer_dispatch. exact Hone.
Qed.

Lemma located_dispatch (net : Network) (a : Action) (s : State) :
  Forall (fun b => hasCoordinates b = true) (wikiArticles s) ->
  Forall (fun b => hasCoordinates b = true) (wikiArticles (finalState (dispatch net a s))).
Proof.
  intros Hall. destruct (dispatch_shape net a s) as [_ Hshape].
  destruct a as [latitude longitude | c z | q | | direction | pressed | [layer |] | |];
    try (apply (evolved_keeps _ _ Hshape); exact Hall).
  rewrite Hshape. destruct (showControls s); [| exact Hall].
  rewrite changeMapLayer_state.
  destruct (mapRef s), (tileLayerRef s); exact Hall.
Qed.

(** No article is ever on show with a [null] latitude or longitude: if that
    holds of the list at some point (it does of the empty list the component
    starts with), it holds after every sequence of actions, whatever the
    networks answer. *)
Theorem session_articles_have_coordinates
    (steps : list (Network * Action)) (s : State) :
  (forall a, In a (wikiArticles s) -> lat a <> VNull /\ lon a <> VNull) ->
  forall a, In a (wikiArticles (runSession steps s)) -> lat a <> VNull /\ lon a <> VNull.
Proof.
  intros Hstart.
  assert (Hall : Forall (fun b => hasCoordinates b = true) (wikiArticles s)).
  { apply Forall_forall. intros b Hb. apply hasCoordinates_true. apply Hstart. exact Hb. }
  clear Hstart. revert s Hall.
  induction steps as [| [net act] rest IH]; intros s Hall a Ha; simpl in Ha.
  - apply hasCoordinates_true. rewrite Forall_forall in Hall. apply Hall. exact Ha.
  - apply (IH (finalState (dispatch net act s))); [| exact Ha].
    apply located_dispatch. exact Hall.
Qed.

Lemma userLocation_dispatch (net : Network) (a : Action) (s : State) :
  userLocation (finalState (dispatch net a s))
  = match a with
    | Locate latitude longitude => Some (latitude, longitude)
    | _ => userLocation s
    end.
Proof.
  destruct (dispatch_shape net a s) as [_ Hshape].
  destruct a as [latitude longitude | c z | q | | direction | pressed | [layer |] | |];
    try (apply (evolved_keeps _ _ Hshape)).
  rewrite Hshape. destruct (showControls s); [| reflexivity].
  rewrite changeMapLayer_state.
  destruct (mapRef s), (tileLayerRef s); reflexivity.
Qed.

Lemma mounted_dispatch (net : Network) (a : Action) (s : State) :
  (exists m, mapRef s = Some m) ->
  exists m', mapRef (finalState (dispatch net a s)) = Some m'.
Proof.
  intros [m Hm]. destruct (dispatch_shape net a s) as [_ Hshape].
  assert (Hev : forall s0 s', evolved s0 s' -> mapRef s0 = Some m ->
                              exists m', mapRef s' = Some m').
  { intros s0 s' He H0. destruct (evolved_keeps s0 s' He) as (_ & _ & _ & M & _).
    destruct (M m H0) as (m' & Hm' & _). exists m'. exact Hm'. }
  destruct a as [latitude longitude | c z | q | | direction | pressed | [layer |] | |];
    try (apply (Hev _ _ Hshape); exact Hm).
  rewrite Hshape. destruct (showControls s); [| exists m; exact Hm].
  rewrite changeMapLayer_state. rewrite Hm.
  destruct (tileLayerRef s); eexists; simpl; [reflexivity | exact Hm].
Qed.

Lemma session_location (steps : list (Network * Action)) (s : State) :
  userLocation (runSession steps s) = lastPosition steps (userLocation s)
  /\ ((exists m, mapRef s = Some m) -> exists m', mapRef (runSession steps s) = Some m').
Proof.
  revert s. induction steps as [| [net a] rest IH]; intros s; simpl.
  - split; [reflexivity | intros Hm; exact Hm].
  - destruct (IH (finalState (dispatch net a s))) as [Hloc Hmap].
    rewrite Hloc, userLocation_dispatch. split.
    + destruct a; reflexivity.
    + intros Hm. apply Hmap. apply mounted_dispatch. exact Hm.
Qed.

(** "Center on Me" returns to the user: after any sequence of actions on a
    mounted map, it centres the map, at zoom 13, on the position most
    recently received from the geolocation, whatever searches, moves and
    fetches came after it; when no position was ever received it changes
    nothing.  A position with a [NaN] coordinate is one Leaflet refuses:
    the call then throws and the map stays where it is. *)
Theorem center_on_me_returns_to_last_position
    (steps : list (Network * Action)) (s : State) (m : LeafletMap) :
  mapRef s = Some m ->
  let s' := runSession steps s in
  match lastPosition steps (userLocation s) with
  | Some location =>
      if invalidLatLng location then
        centerOnUserLocation s' = (inl (latLngError location), s', [])
      else
        exists m', mapRef (finalState (centerOnUserLocation s')) = Some m'
                   /\ center m' = location
                   /\ zoom m' = 13%Z
  | None => finalState (centerOnUserLocation s') = s'
  end.
Proof.
  intros Hm s'. destruct (session_location steps s) as [Hloc Hmap].
  destruct (Hmap (ex_intro _ m Hm)) as [m1 Hm1]. fold s' in Hloc, Hm1.
  rewrite <- Hloc.
  unfold centerOnUserLocation, mapSetView, bind, getState, modify, throw, finalState.
  rewrite Hm1. destruct (userLocation s') as [location |]; [| reflexivity].
  rewrite Hm1. destruct (invalidLatLng location); [reflexivity |].
  simpl. eexists. split; [reflexivity |]. split; reflexivity.
Qed.

(** The component never talks to anything but its own search route and the
    Wikipedia query API: every request of every session goes to one of the
    two. *)
Theorem session_requests_stay_on_endpoints
    (steps : list (Network * Action)) (s : State) :
  Forall (fun req => componentEndpoint req = true)
    (requestsOf (sessionEffects steps s)).
Proof.
  revert s. induction steps as [| [net a] rest IH]; intros s; simpl.
  - constructor.
  - rewrite requestsOf_app. apply Forall_app. split.
    + apply dispatch_shape.
    + apply IH.
Qed.

End SessionFacts.

(** ** The search through the proxy *)

Section Composition.
Context `{Runtime}.

(** A value that survives the round trip through JSON text comes back as
    it is. *)
Lemma reparsed_survives : forall v : value, survivesJson v -> reparsed v = v.
Proof.
  fix IH 1. intros [| | b | n | text | items | props]; simpl.
  - intros [].
  - reflexivity.
  - reflexivity.
  - intros [Hfinite Hsame]. rewrite Hfinite, Hsame. reflexivity.
  - reflexivity.
  - intros Hall. f_equal.
    induction items as [| x rest IHitems]; simpl; [reflexivity |].
    destruct Hall as [Hx Hrest].
    rewrite (IH x Hx). f_equal. apply IHitems. exact Hrest.
  - intros Hall. f_equal.
    induction props as [| [key x] rest IHprops]; simpl; [reflexivity |].
    destruct Hall as [Hx Hrest].
    rewrite (IHprops Hrest).
    assert (Ex : reparsed x = x) by (apply IH; exact Hx).
    destruct x; try (rewrite Ex; reflexivity).
    destruct Hx.
Qed.

(** A string property of an object is still there, unchanged, after the
    round trip. *)
Lemma reparsed_string_property (v : value) (key text : string) :
  getProp v key = inr (VStr text) ->
  getProp (reparsed v) key = inr (VStr text).
Proof.
  destruct v as [| | b | n | t | items | props]; simpl; try discriminate.
  induction props as [| [k x] rest IHprops]; simpl; [discriminate |].
    destruct (String.eqb key k) eqn:Hk.
    + intros E. injection E as ->. simpl. rewrite Hk. reflexivity.
    + intros E. destruct x; simpl; try rewrite Hk; apply IHprops; exact E.
Qed.

(** The component's search served by the route handler.  For a query the
    component dispatches, the proxy never answers 400; when the geocoder
    rejects, answers outside 2xx or sends a body that does not parse, the
    component gets the 500, logs its own error and keeps its state; when the
    geocoder answers with JSON, the component receives status 200 and that
    JSON as it is after the route has printed it and the browser has parsed
    it again, which is the same value when it survives the round trip, and
    in any case keeps the [lat] and [lon] strings of the first result: on a
    mounted map the search then moves the view to their coordinate at zoom
    13. *)
Theorem search_through_proxy (client upstream : Network) (s : State) :
  (2 < String.length (searchQuery s))%nat ->
  client (plainGet (searchUrl (searchQuery s)))
  = served upstream [("q", searchQuery s)] ->
  (forall r, client (plainGet (searchUrl (searchQuery s))) = Resolved r ->
             status r <> 400%Z)
  /\ ((exists reason, upstream (nominatimRequest (searchQuery s)) = Rejected reason)
      \/ (exists r, upstream (nominatimRequest (searchQuery s)) = Resolved r
                    /\ (ok r = false \/ body r = None)) ->
      handleSearch client s
      = (inr tt, s,
         [EvFetch (plainGet (searchUrl (searchQuery s)));
          EvConsoleError "Error fetching search results:"
            [ArgError (Error "Failed to fetch search results")]]))
  /\ (forall r data,
        upstream (nominatimRequest (searchQuery s)) = Resolved r ->
        ok r = true ->
        body r = Some data ->
        client (plainGet (searchUrl (searchQuery s)))
        = Resolved {| status := 200; body := reserialised data |}
        /\ (survivesJson data -> reserialised data = Some data))
  /\ (forall r first others latText lonText m,
        upstream (nominatimRequest (searchQuery s)) = Resolved r ->
        ok r = true ->
        body r = Some (VArr (first :: others)) ->
        getProp first "lat" = inr (VStr latText) ->
        getProp first "lon" = inr (VStr lonText) ->
        number_isNaN (parseFloat latText) = false ->
        number_isNaN (parseFloat lonText) = false ->
        mapRef s = Some m ->
        exists m',
          mapRef (finalState (handleSearch client s)) = Some m'
          /\ center m' = (parseFloat latText, parseFloat lonText)
          /\ zoom m' = 13%Z).
Proof.
  intros Hlen Hroute.
  assert (Hne : searchQuery s <> "").
  { intros E. rewrite E in Hlen. simpl in Hlen. lia. }
  assert (Hget : GET upstream [("q", searchQuery s)] tt
                 = match upstream (nominatimRequest (searchQuery s)) with
                   | Rejected reason =>
                       (inr {| code := 500;
                               payload := errorBody "Failed to fetch search results" |}, tt,
                        [EvFetch (nominatimRequest (searchQuery s));
                         EvConsoleError "Error fetching search results:"
                           [ArgError (NetworkError reason)]])
                   | Resolved r =>
                       if ok r then
                         match body r with
                         | Some data =>
                             (inr {| code := 200; payload := data |}, tt,
                              [EvFetch (nominatimRequest (searchQuery s))])
                         | None =>
                             (inr {| code := 500;
                                     payload := errorBody "Failed to fetch search results" |},
                              tt,
                              [EvFetch (nominatimRequest (searchQuery s));
                               EvConsoleError "Error fetching search results:"
                                 [ArgError SyntaxError]])
                         end
                       else
                         (inr {| code := 500;
                                 payload := errorBody "Failed to fetch search results" |}, tt,
                          [EvFetch (nominatimRequest (searchQuery s));
                           EvConsoleError "Error fetching search results:"
                             [ArgError (Error "Failed to fetch search results")]])
                   end).
  { apply GET_forwarded; [reflexivity | exact Hne]. }
  unfold served in Hroute. rewrite Hget in Hroute.
  apply Nat.ltb_lt in Hlen.
  split; [| split; [| split]].
  - intros r Hr. rewrite Hr in Hroute.
    destruct (upstream (nominatimRequest (searchQuery s))) as [reason | r0].
    + injection Hroute as ->. simpl. discriminate.
    + destruct (ok r0); [destruct (body r0) |];
        injection Hroute as ->; simpl; discriminate.
  - intros Hfail.
    assert (Hclient : client (plainGet (searchUrl (searchQuery s)))
                      = Resolved {| status := 500;
                                    body := Some (errorBody "Failed to fetch search results") |}).
    { rewrite Hroute.
      destruct Hfail as [[reason ->] | (r & -> & [Hok | Hbody])]; [reflexivity | |].
      - rewrite Hok. reflexivity.
      - destruct (ok r); [rewrite Hbody |]; reflexivity. }
    unfold handleSearch. unfold bind at 1. unfold getState. rewrite Hlen.
    unfold tryCatch, bind, fetch, throw, emit. rewrite Hclient. reflexivity.
  - intros r data Hup Hok Hbody. rewrite Hroute, Hup, Hok, Hbody.
    split; [reflexivity |].
    intros Hsurvives. unfold reserialised.
    destruct data; try (rewrite (reparsed_survives _ Hsurvives); reflexivity).
    destruct Hsurvives.
  - intros r first others latText lonText m Hup Hok Hbody Hlat Hlon HlatNum HlonNum Hmap.
    rewrite Hup, Hok, Hbody in Hroute. simpl in Hroute.
    pose proof (reparsed_string_property first "lat" latText Hlat) as Hlat'.
    pose proof (reparsed_string_property first "lon" lonText Hlon) as Hlon'.
    pose proof (invalidLatLng_false _ _ HlatNum HlonNum) as Hvalid.
    exists (setView (parseFloat latText, parseFloat lonText) 13 m).
    assert (Hrun : handleSearch client s =
      match fetchWikiArticles client (parseFloat latText) (parseFloat lonText)
              (withMap (Some (setView (parseFloat latText, parseFloat lonText) 13 m))
                       (tileLayerRef s) s) with
      | (res, s2, t2) => (res, s2, EvFetch (plainGet (searchUrl (searchQuery s))) :: t2)
      end).
    { unfold handleSearch. unfold bind at 1. unfold getState. rewrite Hlen.
      unfold tryCatch, bind, fetch, json, lift, ret, throw.
      rewrite Hroute. simpl.
      rewrite (handleResultSelect_run client (reparsed first) (VStr latText) (VStr lonText)
                 latText lonText s m Hmap Hlat' eq_refl Hlon' eq_refl Hvalid).
      destruct (fetchWikiArticles_frame client (parseFloat latText) (parseFloat lonText)
                  (withMap (Some (setView (parseFloat latText, parseFloat lonText) 13 m))
                           (tileLayerRef s) s))
        as (articles & rest & Hres & _ & _).
      destruct (fetchWikiArticles client _ _ _) as [[res s2] t2].
      unfold outcome in Hres. simpl in Hres. subst res. reflexivity. }
    destruct (fetchWikiArticles_frame client (parseFloat latText) (parseFloat lonText)
                (withMap (Some (setView (parseFloat latText, parseFloat lonText) 13 m))
                         (tileLayerRef s) s))
      as (articles & rest & _ & Hstate & _).
    rewrite Hrun.
    destruct (fetchWikiArticles client _ _ _) as [[res s2] t2].
    unfold finalState in *. simpl in *. subst s2.
    repeat split.
Qed.

End Composition.

(** ** The search-only variant *)

Section Variant.
Context `{Runtime}.
Variable net : Network.


(** A first result whose [lat] or [lon] string does not parse to a number
    makes [setView] throw: the variant logs the exception, empties the
    results it had just stored and leaves the map and its markers alone. *)
Lemma search_only_result_without_coordinate
    (s : SearchOnly.State) (m : SearchOnly.LeafletMap) (r : Response)
    (first : value) (others : list value) (latText lonText : string) :
  SearchOnly.mapRef s = Some m ->
  (2 < String.length (SearchOnly.searchQuery s))%nat ->
  net (plainGet ("/api/search?q=" ++ encodeURIComponent (SearchOnly.searchQuery s)))
  = Resolved r ->
  ok r = true ->
  body r = Some (VArr (first :: others)) ->
  getProp first "lat" = inr (VStr latText) ->
  getProp first "lon" = inr (VStr lonText) ->
  invalidLatLng (parseFloat latText, parseFloat lonText) = true ->
  SearchOnly.handleSearch net s
  = (inr tt, SearchOnly.withSearchResults (VArr []) s,
     [EvFetch (plainGet ("/api/search?q="
                         ++ encodeURIComponent (SearchOnly.searchQuery s)));
      EvConsoleError "Error fetching search results:"
        [ArgError (latLngError (parseFloat latText, parseFloat lonText))]]).
Proof.
  intros Hmap Hlen Hnet Hok Hbody Hlat Hlon Hinvalid.
  apply Nat.ltb_lt in Hlen.
  unfold SearchOnly.handleSearch. unfold bind at 1. unfold getState. rewrite Hlen.
  unfold tryCatch, bind, fetch, json, lift, ret, throw, modify, emit.
  rewrite Hnet, Hok, Hbody. simpl.
  unfold SearchOnly.handleResultSelect, bind, getState, lift, modify, throw. simpl.
  rewrite Hmap, Hlat, Hlon. simpl. rewrite Hinvalid. reflexivity.
Qed.


End Variant.

(** ** The user marker *)

Section UserMarkerFacts.
Context `{Runtime}.

Lemma userLocationEffect_tidy (s : State) (layer : UserLayer) :
  tidy layer -> tidy (userLocationEffect s layer).
Proof.
  intros [Hshown Hfresh]. unfold userLocationEffect.
  destruct (mapRef s); [| split; assumption].
  destruct (userLocation s) as [location |]; [| split; assumption].
  split; simpl.
  - rewrite Hshown. destruct (userMarkerRef layer) as [old |]; [| reflexivity].
    unfold removeLayer. simpl. rewrite Nat.eqb_refl. reflexivity.
  - intros marker E. injection E as <-. simpl. lia.
Qed.

(** There is never more than one user marker on the map.  Starting without
    one, after the effect has run any number of times the map shows exactly
    the marker [userMarkerRef] holds, or none; and right after a run with a
    map and a location, this one marker stands at that location. *)
Theorem user_marker_is_unique (states : list State) :
  let layer := fold_left (fun l s => userLocationEffect s l) states noUserMarker in
  userMarkers layer
  = match userMarkerRef layer with
    | Some marker => [marker]
    | None => []
    end
  /\ (forall earlier s m location,
        states = (earlier ++ [s])%list ->
        mapRef s = Some m ->
        userLocation s = Some location ->
        exists marker, userMarkers layer = [marker] /\ markerAt marker = location).
Proof.
  intros layer.
  assert (Hall : forall start, tidy start ->
            tidy (fold_left (fun l s => userLocationEffect s l) states start)).
  { induction states as [| s rest IH]; intros start Hstart; simpl.
    - exact Hstart.
    - apply IH. apply userLocationEffect_tidy. exact Hstart. }
  assert (Hstart : tidy noUserMarker).
  { split; [reflexivity | intros marker E; discriminate E]. }
  split.
  - apply (Hall noUserMarker Hstart).
  - intros earlier s m location Hstates Hmap Hloc.
    unfold layer. rewrite Hstates, fold_left_app. simpl.
    assert (Hbefore : tidy (fold_left (fun l s0 => userLocationEffect s0 l)
                              earlier noUserMarker)).
    { clear Hall Hstates. revert Hstart. generalize noUserMarker.
      induction earlier as [| s0 rest IH]; intros start Hs; simpl.
      - exact Hs.
      - apply IH. apply userLocationEffect_tidy. exact Hs. }
    remember (fold_left (fun l s0 => userLocationEffect s0 l) earlier noUserMarker)
      as before eqn:Hb.
    clear Hb. destruct Hbefore as [Hshown _].
    unfold userLocationEffect. rewrite Hmap, Hloc.
    cbn [userMarkers]. rewrite Hshown.
    destruct (userMarkerRef before) as [old |].
    + eexists. unfold removeLayer. simpl. rewrite Nat.eqb_refl. simpl.
      split; reflexivity.
    + eexists. split; reflexivity.
Qed.

End UserMarkerFacts.

(** ** The model at concrete inputs *)

Section Scenarios.
#[local] Existing Instance textRuntime.

(** Three steps forwards, or three steps backwards, on three articles. *)
Lemma navigateArticle_full_cycle_witness :
  Nat.iter 3 (navigateArticle next) browsingThird = browsingThird
  /\ Nat.iter 3 (navigateArticle prev) browsingThird = browsingThird
  /\ Nat.iter 3 (clickNavigate next) browsingThird = browsingThird
  /\ Nat.iter 3 (clickNavigate prev) browsingThird = browsingThird.
Proof.
  apply (navigateArticle_full_cycle browsingThird 2).
  - simpl. lia.
  - reflexivity.
  - simpl. lia.
Defined.

(** One article: nothing to navigate to. *)
Lemma navigation_noop_on_short_list_witness :
  navigationAvailable browsingOne = false
  /\ clickNavigate next browsingOne = browsingOne
  /\ navigateArticle next browsingOne = browsingOne.
Proof.
  assert (Hlen : (List.length (wikiArticles browsingOne) <= 1)%nat) by (simpl; lia).
  destruct (navigation_noop_on_short_list browsingOne next Hlen) as (Hnav & Hclick & Hcall).
  split; [exact Hnav |]. split; [exact Hclick |].
  apply (Hcall 0%Z); [reflexivity | simpl; lia].
Defined.

(** The hydration request for the item around (10, 10) is rejected: the
    three articles on show are gone. *)
Lemma fetch_failure_empties_list_witness :
  wikiArticles (finalState (fetchWikiArticles demoNet "10" "10" browsingThird)) = [].
Proof.
  apply (fetch_failure_empties_list demoNet "10" "10" browsingThird
           (plainGet (articlesUrl "9"))).
  - vm_compute. right. left. reflexivity.
  - reflexivity.
Defined.

(** Around (0, 0) the discovery response is empty. *)
Lemma no_ids_no_hydration_witness :
  wikiArticles (finalState (fetchWikiArticles demoNet "0" "0" browsingThird)) = []
  /\ effects (fetchWikiArticles demoNet "0" "0" browsingThird)
     = [EvFetch (plainGet (geosearchUrl "0" "0"))]
  /\ forall pageIds : string,
       ~ In (EvFetch (plainGet (articlesUrl pageIds)))
            (effects (fetchWikiArticles demoNet "0" "0" browsingThird)).
Proof.
  apply (no_ids_no_hydration demoNet "0" "0" browsingThird
           {| status := 200; body := Some noIds |} noIds
           (VObj [("geosearch", VArr [])]));
    reflexivity.
Defined.

(** Around Paris: the page with both coordinates is kept, and whatever is
    kept has neither a [null] latitude nor a [null] longitude. *)
Lemma final_list_keeps_non_null_coordinates_witness :
  (exists a, In a (wikiArticles (finalState
                     (fetchWikiArticles demoNet "48.8566" "2.3522" mounted)))
             /\ title a = VStr "Louvre")
  /\ (forall a, toArticle unlocated = inr a ->
        ~ In a (wikiArticles (finalState
                  (fetchWikiArticles demoNet "48.8566" "2.3522" mounted)))).
Proof.
  destruct (final_list_keeps_non_null_coordinates demoNet "48.8566" "2.3522" mounted
              {| status := 200; body := Some threeIds |}
              {| status := 200; body := Some threePages |}
              threeIds threePages
              (VObj [("pages", VObj [("1", louvre); ("2", unlocated); ("3", halfLocated)])])
              (VObj [("1", louvre); ("2", unlocated); ("3", halfLocated)])
              "1|2|3" [louvre; unlocated; halfLocated] _
              eq_refl eq_refl eq_refl ltac:(discriminate) eq_refl eq_refl
              eq_refl eq_refl eq_refl eq_refl)
    as (Hmem & Habsent & _).
  split.
  - match type of Hmem with
    | forall a, In a ?final <-> _ =>
        assert (Hl : exists a, toArticle louvre = inr a /\ title a = VStr "Louvre"
                               /\ lat a <> VNull /\ lon a <> VNull)
    end.
    { eexists. split; [reflexivity |]. repeat split; simpl; discriminate. }
    destruct Hl as (a & Ha & Htitle & Hlat & Hlon).
    exists a. split; [| exact Htitle].
    apply Hmem. split; [| split; assumption].
    exists louvre. split; [left; reflexivity | exact Ha].
  - intros a Ha. apply (Habsent unlocated a VUndefined Ha); reflexivity.
Defined.

(** C2 as stated fails here: the third page of the hydration response has
    a [lat] and no [lon], and its article is in the final list.  The marker
    effect that follows gives it no marker and reports its coordinates as
    invalid. *)
Lemma half_located_item_is_kept :
  exists a,
    In a (wikiArticles (finalState (fetchWikiArticles demoNet "48.8566" "2.3522" mounted)))
    /\ toArticle halfLocated = inr a
    /\ present (lat a) = true
    /\ present (lon a) = false
    /\ markerOf a = []
    /\ In (EvConsoleWarn "Invalid coordinates for article:" [ArgValue (title a)])
          (effects (markersEffect
                      (finalState (fetchWikiArticles demoNet "48.8566" "2.3522" mounted)))).
Proof.
  eexists.
  split; [| split; [reflexivity | split; [reflexivity | split; [reflexivity | split]]]].
  - vm_compute. right. left. reflexivity.
  - reflexivity.
  - vm_compute. do 2 right. left. reflexivity.
Qed.


(** Two characters are not enough. *)
Lemma short_query_is_ignored_witness :
  handleSearch demoNet (withSearchQuery "Pa" mounted)
  = (inr tt, withSearchQuery "Pa" mounted, [])
  /\ SearchOnly.handleSearch demoNet
       {| SearchOnly.searchQuery := "Pa";
          SearchOnly.searchResults := VArr [];
          SearchOnly.currentLayer := standard;
          SearchOnly.showControls := false;
          SearchOnly.mapRef := None;
          SearchOnly.tileLayerRef := None |}
     = (inr tt,
        {| SearchOnly.searchQuery := "Pa";
           SearchOnly.searchResults := VArr [];
           SearchOnly.currentLayer := standard;
           SearchOnly.showControls := false;
           SearchOnly.mapRef := None;
           SearchOnly.tileLayerRef := None |}, []).
Proof.
  apply (short_query_is_ignored demoNet "Pa").
  - reflexivity.
  - reflexivity.
  - simpl. lia.
Defined.

(** The three answers of the proxy: no [q], a place the geocoder knows, a
    request the geocoder does not answer. *)
Lemma GET_contract_witness :
  GET demoNet [("format", "json")] tt
  = (inr {| code := 400; payload := errorBody "Query parameter is required" |}, tt, [])
  /\ outcome (GET demoNet [("q", "Paris")] tt)
     = inr {| code := 200; payload := parisResults |}
  /\ outcome (GET demoNet [("q", "Rome")] tt)
     = inr {| code := 500; payload := errorBody "Failed to fetch search results" |}.
Proof.
  split; [| split].
  - apply (GET_contract demoNet [("format", "json")]). left. reflexivity.
  - destruct (GET_contract demoNet [("q", "Paris")]) as (_ & _ & Hq).
    destruct (Hq "Paris" eq_refl ltac:(discriminate)) as (_ & Hok & _).
    apply (Hok {| status := 200; body := Some parisResults |}); reflexivity.
  - destruct (GET_contract demoNet [("q", "Rome")]) as (_ & _ & Hq).
    destruct (Hq "Rome" eq_refl ltac:(discriminate)) as (_ & _ & Hfail).
    apply Hfail. left. exists "Failed to fetch". reflexivity.
Defined.

(** C1, on the code.  Three articles are on show with the third selected;
    a fetch around New York completes and replaces the list by one article.
    The cursor is still 2, past the end of the new list, and rendering
    [wikiArticles[currentArticleIndex].title] throws. *)
Theorem stale_cursor_after_fetch :
  let s := finalState (fetchWikiArticles demoNet "40.7128" "-74.006" browsingThird) in
  List.length (wikiArticles s) = 1%nat
  /\ currentArticleIndex s = Idx 2
  /\ render s = RenderError TypeError.
Proof.
  vm_compute. repeat split.
Qed.

(** Around (20, 20) the discovery response has no [query]: reading
    [data.query.geosearch] throws and the list is emptied. *)
Lemma fetch_exception_empties_list_witness :
  wikiArticles (finalState (fetchWikiArticles demoNet "20" "20" browsingThird)) = [].
Proof.
  apply (fetch_exception_empties_list demoNet "20" "20" browsingThird TypeError).
  left. reflexivity.
Defined.

(** The geocoder does not answer for Rome: nothing moves. *)
Lemma failed_search_retains_view_witness :
  finalState (handleSearch demoNet (withSearchQuery "Rome" mounted))
  = withSearchQuery "Rome" mounted.
Proof.
  apply (failed_search_retains_view demoNet (withSearchQuery "Rome" mounted)).
  left. exists "Failed to fetch". reflexivity.
Defined.

(** Around Paris two articles are listed and one of them, the one with a
    number for both coordinates, gets a marker. *)
Lemma markers_follow_articles_witness :
  outcome (markersEffect
             (finalState (fetchWikiArticles demoNet "48.8566" "2.3522" mounted)))
  = inr tt
  /\ exists m' : LeafletMap,
       mapRef (finalState (markersEffect
                 (finalState (fetchWikiArticles demoNet "48.8566" "2.3522" mounted))))
       = Some m'
       /\ List.length (wikiArticles
                         (finalState (fetchWikiArticles demoNet "48.8566" "2.3522" mounted)))
          = 2%nat
       /\ List.length (markers m') = 1%nat.
Proof.
  assert (Hall : Forall (fun a => popupBuilds a = true)
                   (wikiArticles
                      (finalState (fetchWikiArticles demoNet "48.8566" "2.3522" mounted)))).
  { vm_compute. repeat constructor. }
  destruct (markers_follow_articles
              (finalState (fetchWikiArticles demoNet "48.8566" "2.3522" mounted))
              (addTileLayer (mapLayers standard)
                 (L_map (literal "51.505", literal "-0.09") 13))
              eq_refl Hall)
    as (Hout & m' & Hmap & Hmarkers & _).
  split; [exact Hout |].
  exists m'. split; [exact Hmap |]. split; [reflexivity |].
  rewrite Hmarkers. reflexivity.
Defined.

(** From the standard layer to the satellite layer. *)
Lemma changeMapLayer_swaps_tile_layer_witness :
  exists m' : LeafletMap,
    mapRef (finalState (changeMapLayer satellite mounted)) = Some m'
    /\ tileLayers m' = [mapLayers satellite]
    /\ tileLayerRef (finalState (changeMapLayer satellite mounted))
       = Some (mapLayers satellite)
    /\ currentLayer (finalState (changeMapLayer satellite mounted)) = satellite
    /\ center m' = (literal "51.505", literal "-0.09")
    /\ zoom m' = 13%Z.
Proof.
  apply (changeMapLayer_swaps_tile_layer satellite mounted
           (addTileLayer (mapLayers standard)
              (L_map (literal "51.505", literal "-0.09") 13))
           (mapLayers standard));
    reflexivity.
Defined.


(** The second of three articles has no extract: the first two get their
    markers, the third gets none, and the effect ends in an exception. *)
Lemma marker_pass_stops_without_extract_witness :
  exists e,
    outcome (markersEffect bareInTheMiddle) = inl e
    /\ exists m' : LeafletMap,
         mapRef (finalState (markersEffect bareInTheMiddle)) = Some m'
         /\ List.length (markers m') = 2%nat.
Proof.
  assert (Hbefore : Forall (fun b => popupBuilds b = true) [article "A"]).
  { repeat constructor. }
  destruct (marker_pass_stops_without_extract bareInTheMiddle
              (addTileLayer (mapLayers standard)
                 (L_map (literal "51.505", literal "-0.09") 13))
              [article "A"] [article "C"] bare "48.85" "2.35"
              eq_refl eq_refl Hbefore eq_refl eq_refl
              ltac:(discriminate) ltac:(discriminate))
    as (e & Hout & m' & Hmap & Hmarkers).
  exists e. split; [exact Hout |]. exists m'. split; [exact Hmap |].
  rewrite Hmarkers. reflexivity.
Defined.

(** The popup of an article whose extract has 138 characters. *)
Lemma popup_shows_truncated_extract_witness :
  exists (content : PopupContent) (summary before middle after : string),
    createPopupContent verbose = inr content
    /\ className content = "wiki-popup"
    /\ innerHTML content
       = before ++ "Eiffel Tower" ++ "</h3>" ++ middle ++ summary ++ "...</p>" ++ after
    /\ String.prefix summary
         "The Eiffel Tower is a wrought-iron lattice tower on the Champ de Mars in Paris, France. It is named after the engineer Gustave Eiffel."
       = true
    /\ (String.length summary <= 100)%nat
    /\ ((String.length
           "The Eiffel Tower is a wrought-iron lattice tower on the Champ de Mars in Paris, France. It is named after the engineer Gustave Eiffel."
         <= 100)%nat ->
        summary
        = "The Eiffel Tower is a wrought-iron lattice tower on the Champ de Mars in Paris, France. It is named after the engineer Gustave Eiffel.")
    /\ exists tail,
         after = newline ++ "      <a href=" ++ dquote
                 ++ "https://en.wikipedia.org/wiki/Eiffel_Tower" ++ tail.
Proof.
  apply (popup_shows_truncated_extract verbose
           "Eiffel Tower"
           "The Eiffel Tower is a wrought-iron lattice tower on the Champ de Mars in Paris, France. It is named after the engineer Gustave Eiffel."
           "https://en.wikipedia.org/wiki/Eiffel_Tower" "");
    reflexivity.
Defined.

(** Forwards twice and back once from the third of three articles, by
    clicks. *)
Lemma navigation_keeps_cursor_in_range_witness :
  exists (j : Z) (a : WikiArticle),
    fold_left (fun st d => clickNavigate d st) [next; next; prev] browsingThird
    = withCurrentArticleIndex (Idx j) browsingThird
    /\ (0 <= j < 3)%Z
    /\ nth_error (wikiArticles browsingThird) (Z.to_nat j) = Some a
    /\ render (fold_left (fun st d => clickNavigate d st) [next; next; prev] browsingThird)
       = Card {| shown := a; ordinal := Idx (j + 1); total := 3;
                 navigationDisabled := false |}.
Proof.
  apply (navigation_keeps_cursor_in_range browsingThird 2 [next; next; prev] true).
  - reflexivity.
  - simpl. lia.
Defined.

Lemma next_and_prev_are_inverse_witness :
  navigateArticle prev (navigateArticle next browsingThird) = browsingThird
  /\ navigateArticle next (navigateArticle prev browsingThird) = browsingThird.
Proof.
  apply (next_and_prev_are_inverse browsingThird 2).
  - reflexivity.
  - simpl. lia.
Defined.

(** Around (30, 30) the only item found has no [pageid]. *)
Lemma item_without_pageid_counts_as_none_witness :
  fetchWikiArticles widerNet "30" "30" browsingThird
  = (inr tt, withWikiArticles [] browsingThird,
     [EvFetch (plainGet (geosearchUrl "30" "30"))]).
Proof.
  apply (item_without_pageid_counts_as_none widerNet "30" "30" browsingThird
           {| status := 200; body := Some lonelyItem |} lonelyItem
           (VObj [("geosearch", VArr [VObj [("title", VStr "Nameless")]])])
           (VObj [("title", VStr "Nameless")]));
    try reflexivity.
  left. reflexivity.
Defined.

(** Around Paris the response lists three pages; two of the three articles
    pass the filter, in the order of the pages. *)
Lemma final_list_in_response_order_witness :
  exists articles,
    Forall2 (fun page a => toArticle page = inr a) [louvre; unlocated; halfLocated] articles
    /\ wikiArticles (finalState (fetchWikiArticles demoNet "48.8566" "2.3522" mounted))
       = filter hasCoordinates articles
    /\ (List.length (wikiArticles
                       (finalState (fetchWikiArticles demoNet "48.8566" "2.3522" mounted)))
        <= 3)%nat.
Proof.
  apply (final_list_in_response_order demoNet "48.8566" "2.3522" mounted "1|2|3"
           threePages
           (VObj [("pages", VObj [("1", louvre); ("2", unlocated); ("3", halfLocated)])])
           (VObj [("1", louvre); ("2", unlocated); ("3", halfLocated)])
           [louvre; unlocated; halfLocated]);
    try reflexivity.
  - discriminate.
  - intros page [<- | [<- | [<- | []]]]; eexists; reflexivity.
Defined.

(** Paris searched before the map is mounted. *)
Lemma search_without_map_is_dropped_witness :
  handleSearch demoNet (withSearchQuery "Paris" initialState)
  = (inr tt, withSearchQuery "Paris" initialState,
     effects (handleSearch demoNet (withSearchQuery "Paris" initialState)))
  /\ (requestsOf (effects (handleSearch demoNet (withSearchQuery "Paris" initialState))) = []
      \/ requestsOf (effects (handleSearch demoNet (withSearchQuery "Paris" initialState)))
         = [plainGet (searchUrl "Paris")]).
Proof.
  apply (search_without_map_is_dropped demoNet (withSearchQuery "Paris" initialState)).
  reflexivity.
Defined.

Lemma session_keeps_one_tile_layer_witness :
  oneTileLayer (runSession demoSession mounted).
Proof.
  apply (session_keeps_one_tile_layer demoSession mounted).
  eexists. split; [reflexivity |]. split; reflexivity.
Defined.

(** The session ends on the two articles listed around Paris. *)
Lemma session_articles_have_coordinates_witness :
  List.length (wikiArticles (runSession demoSession mounted)) = 2%nat
  /\ Forall (fun a => lat a <> VNull /\ lon a <> VNull)
       (wikiArticles (runSession demoSession mounted)).
Proof.
  split; [reflexivity |].
  apply Forall_forall.
  apply (session_articles_have_coordinates demoSession mounted).
  intros a [].
Defined.

(** The position received in the session is New York. *)
Lemma center_on_me_returns_to_last_position_witness :
  exists m',
    mapRef (finalState (centerOnUserLocation (runSession demoSession mounted))) = Some m'
    /\ center m' = ("40.7128", "-74.006")
    /\ zoom m' = 13%Z.
Proof.
  apply (center_on_me_returns_to_last_position demoSession mounted
           (addTileLayer (mapLayers standard)
              (L_map (literal "51.505", literal "-0.09") 13))).
  reflexivity.
Defined.

(** Paris, Rome and Oslo asked through the proxy: the answer for Paris
    arrives as it was sent, the geocoder is down for Rome, and the answer
    for Oslo arrives with its overflowed importance turned into [null],
    which does not keep the search from going there. *)
Lemma search_through_proxy_witness :
  throughProxy demoNet (plainGet (searchUrl "Paris"))
  = Resolved {| status := 200; body := Some parisResults |}
  /\ handleSearch (throughProxy demoNet) (withSearchQuery "Rome" mounted)
     = (inr tt, withSearchQuery "Rome" mounted,
        [EvFetch (plainGet (searchUrl "Rome"));
         EvConsoleError "Error fetching search results:"
           [ArgError (Error "Failed to fetch search results")]])
  /\ throughProxy overflowNet (plainGet (searchUrl "Oslo"))
     = Resolved {| status := 200;
                   body := Some (VArr [ VObj [ ("lat", VStr "59.9139");
                                               ("lon", VStr "10.7522");
                                               ("importance", VNull) ] ]) |}
  /\ exists m',
       mapRef (finalState (handleSearch (throughProxy overflowNet)
                             (withSearchQuery "Oslo" mounted))) = Some m'
       /\ center m' = ("59.9139", "10.7522")
       /\ zoom m' = 13%Z.
Proof.
  split; [| split; [| split]].
  - destruct (search_through_proxy (throughProxy demoNet) demoNet
                (withSearchQuery "Paris" mounted)) as (_ & _ & Hok & _).
    + simpl. lia.
    + reflexivity.
    + destruct (Hok {| status := 200; body := Some parisResults |} parisResults
                  eq_refl eq_refl eq_refl) as [Hclient Hsame].
      rewrite Hsame in Hclient; [exact Hclient |].
      simpl. repeat split.
  - destruct (search_through_proxy (throughProxy demoNet) demoNet
                (withSearchQuery "Rome" mounted)) as (_ & Hfail & _).
    + simpl. lia.
    + reflexivity.
    + apply Hfail. left. exists "Failed to fetch". reflexivity.
  - destruct (search_through_proxy (throughProxy overflowNet) overflowNet
                (withSearchQuery "Oslo" mounted)) as (_ & _ & Hok & _).
    + simpl. lia.
    + reflexivity.
    + destruct (Hok {| status := 200; body := Some osloResults |} osloResults
                  eq_refl eq_refl eq_refl) as [Hclient _].
      exact Hclient.
  - destruct (search_through_proxy (throughProxy overflowNet) overflowNet
                (withSearchQuery "Oslo" mounted)) as (_ & _ & _ & Hgo).
    + simpl. lia.
    + reflexivity.
    + apply (Hgo {| status := 200; body := Some osloResults |}
                 osloFirst [] "59.9139" "10.7522"
                 (addTileLayer (mapLayers standard)
                    (L_map (literal "51.505", literal "-0.09") 13)));
        reflexivity.
Defined.



End Scenarios.
